(** * Grade Checker: the reconciliation engine of [app.py]

    A shallow embedding of [normalize_grade], [read_roster_file] and
    [compare_grades], and the properties of the written specification
    that can be settled on it.

    Conventions of the embedding.
    - Text is a Rocq [string], read as ASCII: the character classes and
      the case mapping below are those of Python's [str] on the ASCII
      range; characters above 127 are left alone by every operation.
    - A spreadsheet cell is a [cell]: text, a missing value (pandas' NaN),
      an integer, or any other value (a float, a date) known by the text
      that [str] gives of it.
    - A data frame is a list of rows; a column of a frame is reached
      through its label.
    - What pandas makes of a file is an input of the model: the raw sheet
      of a roster, the frame it gives when read again under a header
      row, the frame of an export, or the exception raised instead. *)

From Stdlib Require Import ZArith Ascii.
From stdpp Require Import base decidable list strings pretty gmap sorting.

Local Open Scope string_scope.
Local Open Scope list_scope.
Local Open Scope nat_scope.

(** ** Python strings *)

Module PyStr.

(** [str.isspace] on one ASCII character: TAB..CR, FS..US and SPACE. *)
Definition is_space (c : ascii) : bool :=
  let n := nat_of_ascii c in
  (Nat.leb 9 n && Nat.leb n 13) || (Nat.leb 28 n && Nat.leb n 32).

Definition is_digit (c : ascii) : bool :=
  let n := nat_of_ascii c in Nat.leb 48 n && Nat.leb n 57.

Definition upper_ascii (c : ascii) : ascii :=
  let n := nat_of_ascii c in
  if Nat.leb 97 n && Nat.leb n 122 then ascii_of_nat (n - 32) else c.

Definition lower_ascii (c : ascii) : ascii :=
  let n := nat_of_ascii c in
  if Nat.leb 65 n && Nat.leb n 90 then ascii_of_nat (n + 32) else c.

(** [s.upper()] and [s.lower()] *)
Fixpoint upper (s : string) : string :=
  match s with
  | EmptyString => EmptyString
  | String c s' => String (upper_ascii c) (upper s')
  end.

Fixpoint lower (s : string) : string :=
  match s with
  | EmptyString => EmptyString
  | String c s' => String (lower_ascii c) (lower s')
  end.

(** [s.lstrip()], [s.rstrip()] and [s.strip()] *)
Fixpoint lstrip (s : string) : string :=
  match s with
  | EmptyString => EmptyString
  | String c s' => if is_space c then lstrip s' else s
  end.

Fixpoint rstrip (s : string) : string :=
  match s with
  | EmptyString => EmptyString
  | String c s' =>
      match rstrip s' with
      | EmptyString => if is_space c then EmptyString else String c EmptyString
      | t => String c t
      end
  end.

Definition strip (s : string) : string := lstrip (rstrip s).

(** [s.isnumeric()]: at least one character, and digits only. *)
Fixpoint all_digits (s : string) : bool :=
  match s with
  | EmptyString => true
  | String c s' => is_digit c && all_digits s'
  end.

Definition isnumeric (s : string) : bool :=
  match s with
  | EmptyString => false
  | _ => all_digits s
  end.

(** [x in xs] for a list of strings *)
Definition mem (x : string) (xs : list string) : bool :=
  existsb (String.eqb x) xs.

End PyStr.

(** ** Cells *)

Inductive cell : Type :=
| CStr (s : string)
| CNaN
| CInt (z : Z)
| COther (text : string).

(** [str(v)], which is also what [astype(str)] applies to each cell. *)
Definition py_str (v : cell) : string :=
  match v with
  | CStr s => s
  | CNaN => "nan"
  | CInt z => pretty z
  | COther text => text
  end.

(** ** [normalize_grade] *)

Definition normalize_grade (grade : cell) : string :=
  let g := PyStr.upper (PyStr.strip (py_str grade)) in
  if PyStr.mem g ["P"; "PASS"] then "PASS"
  else if PyStr.mem g ["ABSENT"; "ABS"] then "ABSENT"
  else g.

(** ** [os.path] on upload names (POSIX) *)

Module OsPath.

(** [p.rfind(c)], with -1 for "not found". *)
Fixpoint rfind_from (c : ascii) (i : Z) (last : Z) (p : string) : Z :=
  match p with
  | EmptyString => last
  | String d p' =>
      rfind_from c (i + 1) (if Ascii.eqb d c then i else last) p'
  end.

Definition rfind (c : ascii) (p : string) : Z := rfind_from c 0 (-1) p.

(** [p[i:j]] for [0 <= i] *)
Definition slice (i j : Z) (p : string) : string :=
  String.substring (Z.to_nat i) (Z.to_nat (j - i)) p.

Definition basename (p : string) : string :=
  let i := (rfind "/" p + 1)%Z in
  slice i (Z.of_nat (String.length p)) p.

Fixpoint has_non_dot (s : string) : bool :=
  match s with
  | EmptyString => false
  | String c s' => negb (Ascii.eqb c ".") || has_non_dot s'
  end.

(** [splitext(p)[0]]: the extension starts at the last dot of the last
    component, unless only dots precede it there. *)
Definition splitext_root (p : string) : string :=
  let sepIndex := rfind "/" p in
  let dotIndex := rfind "." p in
  if (sepIndex <? dotIndex)%Z
  then if has_non_dot (slice (sepIndex + 1) dotIndex p)
       then slice 0 dotIndex p
       else p
  else p.

End OsPath.

(** ** Exceptions and data frames *)

Inductive exn : Type :=
| ValueError (msg : string)
| OtherException (msg : string).

(** [str(e)] *)
Definition exn_str (e : exn) : string :=
  match e with
  | ValueError msg => msg
  | OtherException msg => msg
  end.

(** A sheet read with [header=None]. *)
Definition grid : Type := list (list cell).

Record frame : Type := Frame {
  columns : list string;
  frame_rows : list (list cell)
}.

(** [label in df.columns] *)
Definition has_column (label : string) (df : frame) : bool :=
  PyStr.mem label (columns df).

Fixpoint index_of (label : string) (cols : list string) : option nat :=
  match cols with
  | [] => None
  | c :: cols' =>
      if String.eqb c label then Some 0
      else S <$> index_of label cols'
  end.

(** The value of one row in the column [label]; a row shorter than the
    header is padded with NaN, as pandas does on reading.  It is asked
    only of labels borne by one column: a selection by a repeated label
    raises before any cell is read (see [clean_data_raises]). *)
Definition cell_at (df : frame) (label : string) (row : list cell) : cell :=
  match index_of label (columns df) with
  | Some i => default CNaN (row !! i)
  | None => CNaN
  end.

(** [df.columns = df.columns.str.strip()] *)
Definition strip_columns (df : frame) : frame :=
  Frame (PyStr.strip <$> columns df) (frame_rows df).

(** ** [read_roster_file] *)

Definition id_variants : gset string := {["SID"; "STUDENT ID"]}.

(** [row.astype(str).str.upper().str.strip()] *)
Definition row_upper (row : list cell) : list string :=
  (λ v, PyStr.strip (PyStr.upper (py_str v))) <$> row.

(** The test of the scanning loop.  The [header_keywords] argument of the
    source is normalised on entry and never read again: the loop tests
    the literal markers. *)
Definition is_header_row (row : list cell) : bool :=
  let toks : gset string := list_to_set (row_upper row) in
  bool_decide ("LETTER GRADE" ∈ toks) && bool_decide (toks ∩ id_variants ≠ ∅).

(** [for i, row in df_raw.iterrows(): ... header_row = i; break] *)
Fixpoint find_header_from (i : nat) (df_raw : grid) : option nat :=
  match df_raw with
  | [] => None
  | row :: rest =>
      if is_header_row row then Some i else find_header_from (S i) rest
  end.

Definition find_header (df_raw : grid) : option nat :=
  find_header_from 0 df_raw.

(** The re-slicing of a raw sheet under a header row: the row at
    [header_row] gives the labels, the rows below it are the data.  It is
    what [pd.read_excel(file_path, header=header_row)] gives of a sheet
    whose header row has no blank and no repeated cell and whose columns
    keep their types; the sample rosters below are such sheets. *)
Definition with_header (header_row : nat) (df_raw : grid) : frame :=
  match drop header_row df_raw with
  | hd :: data => Frame (py_str <$> hd) data
  | [] => Frame [] []
  end.

Definition header_not_found (file_path : string) : string :=
  "Header row with required keywords not found in " +:+ file_path.

(** [excel] is what [pd.read_excel(file_path, header=None)] gives, the
    raw sheet or the exception it raises, and [reread header_row] what
    [pd.read_excel(file_path, header=header_row)] gives. *)
Definition read_roster_file (file_path : string) (excel : exn + grid)
    (reread : nat → exn + frame) : exn + frame :=
  match excel with
  | inl e => inl e
  | inr df_raw =>
      match find_header df_raw with
      | None => inl (ValueError (header_not_found file_path))
      | Some header_row => reread header_row
      end
  end.

(** ** The two cleaned tables of one course *)

(** [df_roster_sub] after "Clean data": the identifier stripped, the
    letter grade stripped and uppercased. *)
Record roster_row : Type := RosterRow {
  ro_sid : string;
  ro_letter : string
}.

(** [df_downloaded_sub] after "Clean data". *)
Record downloaded_row : Type := DownloadedRow {
  dl_id : string;
  dl_approved : string;
  dl_withdrawn : string
}.

Definition clean_id (v : cell) : string := PyStr.strip (py_str v).
Definition clean_upper (v : cell) : string :=
  PyStr.upper (PyStr.strip (py_str v)).

Definition roster_sub (sid_col : string) (df_roster : frame) : list roster_row :=
  (λ row, RosterRow (clean_id (cell_at df_roster sid_col row))
                    (clean_upper (cell_at df_roster "Letter Grade" row)))
    <$> frame_rows df_roster.

(** Without a "Withdrawn" column the source fills one with [''] . *)
Definition downloaded_sub (df_downloaded : frame) : list downloaded_row :=
  (λ row, DownloadedRow
            (clean_id (cell_at df_downloaded "ID" row))
            (clean_upper (cell_at df_downloaded "Approved final grade" row))
            (clean_upper (if has_column "Withdrawn" df_downloaded
                          then cell_at df_downloaded "Withdrawn" row
                          else CStr "")))
    <$> frame_rows df_downloaded.

(** ** [pd.merge(..., how='outer', indicator=True)] *)

Inductive indicator : Type := left_only | right_only | both.

Global Instance indicator_eq_dec : EqDecision indicator.
Proof. solve_decision. Defined.

(** One row of [merged]: the columns of both sides, NaN where the side
    is absent, and [_merge]. *)
Record merged_row : Type := MergedRow {
  m_sid : cell;
  m_letter : cell;
  m_id : cell;
  m_approved : cell;
  m_withdrawn : cell;
  m_merge : indicator
}.

Definition row_both (l : roster_row) (r : downloaded_row) : merged_row :=
  MergedRow (CStr (ro_sid l)) (CStr (ro_letter l))
            (CStr (dl_id r)) (CStr (dl_approved r)) (CStr (dl_withdrawn r)) both.

Definition row_left (l : roster_row) : merged_row :=
  MergedRow (CStr (ro_sid l)) (CStr (ro_letter l)) CNaN CNaN CNaN left_only.

Definition row_right (r : downloaded_row) : merged_row :=
  MergedRow CNaN CNaN
            (CStr (dl_id r)) (CStr (dl_approved r)) (CStr (dl_withdrawn r))
            right_only.

(** [a.combine_first(b)], cell by cell *)
Definition combine_first (a b : cell) : cell :=
  match a with
  | CNaN => b
  | _ => a
  end.

Definition join_key (m : merged_row) : string :=
  py_str (combine_first (m_sid m) (m_id m)).

(** The rows a roster row gives: one per downloaded row of the same key,
    or itself alone. *)
Definition join_left (right : list downloaded_row) (l : roster_row)
  : list merged_row :=
  match filter (λ r, dl_id r = ro_sid l) right with
  | [] => [row_left l]
  | rs => row_both l <$> rs
  end.

Definition unmatched_right (left : list roster_row) (right : list downloaded_row)
  : list downloaded_row :=
  filter (λ r, ¬ (dl_id r ∈ ro_sid <$> left)) right.

(** An outer join sorts the keys lexicographically and keeps the order
    of the rows of one key: a stable insertion sort. *)
Fixpoint insert_by_key (m : merged_row) (ms : list merged_row)
  : list merged_row :=
  match ms with
  | [] => [m]
  | x :: ms' =>
      if String.leb (join_key m) (join_key x) then m :: ms
      else x :: insert_by_key m ms'
  end.

Definition sort_by_key (ms : list merged_row) : list merged_row :=
  foldr insert_by_key [] ms.

Definition merge_outer (left : list roster_row) (right : list downloaded_row)
  : list merged_row :=
  sort_by_key ((left ≫= join_left right) ++ (row_right <$> unmatched_right left right)).

(** ** The columns added to [merged] *)

(** [merged[sid_col].combine_first(merged['ID']).astype(str).str.strip()] *)
Definition ID_final (m : merged_row) : string :=
  PyStr.strip (py_str (combine_first (m_sid m) (m_id m))).

(** The row filter on [ID_final]; [notna()] holds of every string. *)
Definition id_present (m : merged_row) : bool :=
  negb (String.eqb (ID_final m) "")
  && negb (String.eqb (PyStr.lower (ID_final m)) "nan").

(** [series == literal], cell by cell: NaN equals nothing. *)
Definition cell_is (v : cell) (lit : string) : bool :=
  match v with
  | CStr s => String.eqb s lit
  | _ => false
  end.

Definition is_withdrawn (m : merged_row) : bool :=
  cell_is (m_approved m) "W" || cell_is (m_withdrawn m) "WITHDRAWN".

Definition norm_roster_grade (m : merged_row) : string :=
  normalize_grade (m_letter m).

Definition norm_downloaded_grade (m : merged_row) : string :=
  normalize_grade (m_approved m).

Definition mismatch (m : merged_row) : bool :=
  bool_decide (m_merge m = both)
  && ((String.eqb (norm_roster_grade m) "ABSENT"
       && negb (String.eqb (norm_downloaded_grade m) "F"))
      || (negb (String.eqb (norm_roster_grade m) "ABSENT")
          && negb (String.eqb (norm_roster_grade m) (norm_downloaded_grade m)))).

Definition matched (m : merged_row) : bool := negb (mismatch m).

(** One row of [result]: the six columns kept of [merged]. *)
Record result_row : Type := ResultRow {
  course : string;
  r_ID_final : string;
  r_letter : cell;
  r_approved : cell;
  r_matched : bool;
  r_is_withdrawn : bool
}.

Definition to_result (base_name : string) (m : merged_row) : result_row :=
  ResultRow base_name (ID_final m) (m_letter m) (m_approved m)
            (matched m) (is_withdrawn m).

(** ** [compare_grades] *)

(** An uploaded roster: its name, what [pd.read_excel(.., header=None)]
    makes of its bytes, and what [pd.read_excel(.., header=h)] makes of
    them for each header row [h]. *)
Record roster_file : Type := UploadedRoster {
  rf_name : string;
  rf_excel : exn + grid;
  rf_reread : nat → exn + frame
}.

(** A roster that reads again as the re-slicing of its raw sheet. *)
Definition RosterFile (name : string) (excel : exn + grid) : roster_file :=
  UploadedRoster name excel
    (λ header_row,
       match excel with
       | inl e => inl e
       | inr df_raw => inr (with_header header_row df_raw)
       end).

(** An uploaded export: its name and what [pd.read_csv] makes of it. *)
Record downloaded_file : Type := DownloadedFile {
  df_name : string;
  df_csv : exn + frame
}.

(** One entry of [results]. *)
Inductive outcome : Type :=
| Success (base_name message : string)
          (data unmatched : list result_row) (withdrawn : list string)
| Error (base_name message : string).

Record summary : Type := Summary {
  total_courses : nat;
  courses_with_mismatches : nat;
  total_mismatches : nat;
  total_students : nat;
  unique_students : nat;
  withdrawn_students : nat
}.

(** The variables of the loop.  [temp_files] counts the temporary files
    created so far; the k-th one is named by the oracle [mkstemp k]. *)
Record state : Type := State {
  results : list outcome;
  all_unmatched : list (list result_row);
  unique_student_ids : gset string;
  summary_stats : summary;
  temp_files : nat
}.

Definition initial_state : state :=
  State [] [] ∅ (Summary 0 0 0 0 0 0) 0.

(** [base_name = os.path.splitext(os.path.basename(f.name))[0]] *)
Definition stem (name : string) : string :=
  OsPath.splitext_root (OsPath.basename name).

(** [{stem(f.name): f for f in downloaded_files}]: a later file of the
    same stem replaces an earlier one. *)
Definition make_downloaded_dict (downloaded_files : list downloaded_file)
  : gmap string downloaded_file :=
  foldl (λ d f, <[stem (df_name f) := f]> d) ∅ downloaded_files.

(** [results.append({... "status": "error" ...})] *)
Definition append_error (base_name message : string) (st : state) : state :=
  State (results st ++ [Error base_name message])
        (all_unmatched st) (unique_student_ids st) (summary_stats st)
        (temp_files st).

(** [summary_stats["total_courses"] += 1], then the two temporary files. *)
Definition begin_course (st : state) : state :=
  let s := summary_stats st in
  State (results st) (all_unmatched st) (unique_student_ids st)
        (Summary (total_courses s + 1) (courses_with_mismatches s)
                 (total_mismatches s) (total_students s)
                 (unique_students s) (withdrawn_students s))
        (temp_files st + 2).

Definition sid_column (df_roster : frame) : option string :=
  if has_column "SID" df_roster then Some "SID"
  else if has_column "Student ID" df_roster then Some "Student ID"
  else None.

(** [merged] after the filter on [ID_final]. *)
Definition merged_frame (sid_col : string) (df_roster df_downloaded : frame)
  : list merged_row :=
  filter (λ m, id_present m)
         (merge_outer (roster_sub sid_col df_roster)
                      (downloaded_sub df_downloaded)).

Definition success_message (n unmatched_count w : nat) : string :=
  "Processed " +:+ pretty n +:+ " students, found " +:+ pretty unmatched_count
  +:+ " mismatches, " +:+ pretty w +:+ " withdrawn".

(** From "Merge datasets" to the [results.append] of a success. *)
Definition reconcile (base_name sid_col : string)
    (df_roster df_downloaded : frame) (st : state) : state :=
  let merged := merged_frame sid_col df_roster df_downloaded in
  let withdrawn_ids := ID_final <$> filter (λ m, is_withdrawn m) merged in
  let valid_ids := filter (λ i, PyStr.isnumeric i) (ID_final <$> merged) in
  let result :=
    to_result base_name <$> filter (λ m, PyStr.isnumeric (ID_final m)) merged in
  let unmatched := filter (λ r, negb (r_matched r)) result in
  let unmatched_count := length unmatched in
  let s := summary_stats st in
  let flagged := bool_decide (0 < unmatched_count) in
  State
    (results st ++
       [Success base_name
          (success_message (length result) unmatched_count (length withdrawn_ids))
          result unmatched withdrawn_ids])
    (if flagged then all_unmatched st ++ [unmatched] else all_unmatched st)
    (unique_student_ids st ∪ list_to_set valid_ids)
    (Summary (total_courses s)
             (if flagged then courses_with_mismatches s + 1
              else courses_with_mismatches s)
             (if flagged then total_mismatches s + unmatched_count
              else total_mismatches s)
             (total_students s + length result)
             (unique_students s)
             (withdrawn_students s + length withdrawn_ids))
    (temp_files st).

Definition processing_error (e : exn) : string :=
  "Error processing files: " +:+ exn_str e.

(** A label borne by two columns: [df[label]] is then a frame, not a
    column. *)
Definition is_repeated (label : string) (df : frame) : bool :=
  Nat.ltb 1 (length (filter (λ c, c = label) (columns df))).

(** The exception of "Clean data": [.str] is asked of a selection that is
    a frame. *)
Definition attribute_error : exn :=
  OtherException "'DataFrame' object has no attribute 'str'".

Definition clean_data_raises (sid_col : string)
    (df_roster df_downloaded : frame) : bool :=
  is_repeated sid_col df_roster
  || is_repeated "ID" df_downloaded
  || is_repeated "Letter Grade" df_roster
  || is_repeated "Approved final grade" df_downloaded
  || is_repeated "Withdrawn" df_downloaded.

(** The column checks and the cleaning, then the reconciliation. *)
Definition check_and_reconcile (base_name : string)
    (df_roster df_downloaded : frame) (st : state) : state :=
  let df_roster := strip_columns df_roster in
  let df_downloaded := strip_columns df_downloaded in
  match sid_column df_roster with
  | None => append_error base_name "Required student id column is missing." st
  | Some sid_col =>
      if negb (has_column "Letter Grade" df_roster)
      then append_error base_name "'Letter Grade' column is missing." st
      else if negb (has_column "ID" df_downloaded)
              || negb (has_column "Approved final grade" df_downloaded)
      then append_error base_name
             "Required columns are missing in downloaded file." st
      else if clean_data_raises sid_col df_roster df_downloaded
      then append_error base_name (processing_error attribute_error) st
      else reconcile base_name sid_col df_roster df_downloaded st
  end.

(** The body of [for roster_file in roster_files]. *)
Definition process (mkstemp : nat → string)
    (downloaded_dict : gmap string downloaded_file)
    (st : state) (roster : roster_file) : state :=
  let base_name := stem (rf_name roster) in
  match downloaded_dict !! base_name with
  | Some downloaded =>
      let tmp_roster_path := mkstemp (temp_files st) in
      let st := begin_course st in
      match read_roster_file tmp_roster_path (rf_excel roster)
              (rf_reread roster) with
      | inl (ValueError msg) => append_error base_name msg st
      | inl e => append_error base_name (processing_error e) st
      | inr df_roster =>
          match df_csv downloaded with
          | inl e => append_error base_name (processing_error e) st
          | inr df_downloaded =>
              check_and_reconcile base_name df_roster df_downloaded st
          end
      end
  | None => append_error base_name "No matching downloaded file found" st
  end.

Definition run_from (mkstemp : nat → string)
    (downloaded_dict : gmap string downloaded_file)
    (st : state) (roster_files : list roster_file) : state :=
  foldl (process mkstemp downloaded_dict) st roster_files.

(** [summary_stats["unique_students"] = len(unique_student_ids)] *)
Definition finish (st : state) : summary :=
  let s := summary_stats st in
  Summary (total_courses s) (courses_with_mismatches s) (total_mismatches s)
          (total_students s) (size (unique_student_ids st))
          (withdrawn_students s).

Definition compare_grades (mkstemp : nat → string)
    (roster_files : list roster_file) (downloaded_files : list downloaded_file)
  : list outcome * summary * list (list result_row) :=
  let st := run_from mkstemp (make_downloaded_dict downloaded_files)
                     initial_state roster_files in
  (results st, finish st, all_unmatched st).

(** ** How one course ends *)

(** The outcome appended by a successful reconciliation, as [reconcile]
    builds it. *)
Definition course_outcome (base_name sid_col : string)
    (df_roster df_downloaded : frame) : outcome :=
  let merged := merged_frame sid_col df_roster df_downloaded in
  let withdrawn_ids := ID_final <$> filter (λ m, is_withdrawn m) merged in
  let result :=
    to_result base_name <$> filter (λ m, PyStr.isnumeric (ID_final m)) merged in
  let unmatched := filter (λ r, negb (r_matched r)) result in
  Success base_name
    (success_message (length result) (length unmatched) (length withdrawn_ids))
    result unmatched withdrawn_ids.

(** The paths through the loop body, read off the uploads alone. *)
Inductive verdict : Type :=
| Unpaired
| NoHeader
| Failed (message : string)
| Reconciled (sid_col : string) (df_roster df_downloaded : frame).

Definition examine (df_roster df_downloaded : frame) : verdict :=
  let df_roster := strip_columns df_roster in
  let df_downloaded := strip_columns df_downloaded in
  match sid_column df_roster with
  | None => Failed "Required student id column is missing."
  | Some sid_col =>
      if negb (has_column "Letter Grade" df_roster)
      then Failed "'Letter Grade' column is missing."
      else if negb (has_column "ID" df_downloaded)
              || negb (has_column "Approved final grade" df_downloaded)
      then Failed "Required columns are missing in downloaded file."
      else if clean_data_raises sid_col df_roster df_downloaded
      then Failed (processing_error attribute_error)
      else Reconciled sid_col df_roster df_downloaded
  end.

Definition verdict_of (downloaded_dict : gmap string downloaded_file)
    (roster : roster_file) : verdict :=
  match downloaded_dict !! stem (rf_name roster) with
  | None => Unpaired
  | Some downloaded =>
      match rf_excel roster with
      | inl (ValueError msg) => Failed msg
      | inl e => Failed (processing_error e)
      | inr df_raw =>
          match find_header df_raw with
          | None => NoHeader
          | Some header_row =>
              match rf_reread roster header_row with
              | inl (ValueError msg) => Failed msg
              | inl e => Failed (processing_error e)
              | inr df_roster =>
                  match df_csv downloaded with
                  | inl e => Failed (processing_error e)
                  | inr df_downloaded => examine df_roster df_downloaded
                  end
              end
          end
      end
  end.

(** [o] is an outcome the loop body can append for [roster]. *)
Definition outcome_for (downloaded_dict : gmap string downloaded_file)
    (roster : roster_file) (o : outcome) : Prop :=
  let base_name := stem (rf_name roster) in
  match verdict_of downloaded_dict roster with
  | Unpaired => o = Error base_name "No matching downloaded file found"
  | NoHeader => ∃ file_path, o = Error base_name (header_not_found file_path)
  | Failed message => o = Error base_name message
  | Reconciled sid_col df_roster df_downloaded =>
      o = course_outcome base_name sid_col df_roster df_downloaded
  end.

Definition is_paired (downloaded_dict : gmap string downloaded_file)
    (roster : roster_file) : bool :=
  bool_decide (is_Some (downloaded_dict !! stem (rf_name roster))).

(** The parts of an outcome; an error outcome has none ([data] is None,
    the other keys are absent). *)
Definition outcome_data (o : outcome) : list result_row :=
  match o with
  | Success _ _ data _ _ => data
  | Error _ _ => []
  end.

Definition outcome_unmatched (o : outcome) : list result_row :=
  match o with
  | Success _ _ _ unmatched _ => unmatched
  | Error _ _ => []
  end.

Definition outcome_withdrawn (o : outcome) : list string :=
  match o with
  | Success _ _ _ _ withdrawn => withdrawn
  | Error _ _ => []
  end.

Definition outcome_ids (o : outcome) : list string :=
  r_ID_final <$> outcome_data o.

Definition is_success (o : outcome) : bool :=
  match o with
  | Success _ _ _ _ _ => true
  | Error _ _ => false
  end.

(** Two outcomes that differ at most in the path quoted by a
    header-not-found message. *)
Definition same_outcome (o o' : outcome) : Prop :=
  o = o'
  ∨ ∃ base_name p p',
      o = Error base_name (header_not_found p)
      ∧ o' = Error base_name (header_not_found p').

(** [st'] is [st] after the outcomes [os] were appended and counted. *)
Record tallied (st : state) (os : list outcome) (st' : state) : Prop := Tallied {
  t_results : results st' = results st ++ os;
  t_unmatched :
    all_unmatched st'
    = all_unmatched st ++ filter (λ u, 0 < length u) (outcome_unmatched <$> os);
  t_ids :
    unique_student_ids st'
    = unique_student_ids st ∪ list_to_set (mjoin (outcome_ids <$> os));
  t_students :
    total_students (summary_stats st')
    = total_students (summary_stats st) + length (mjoin (outcome_data <$> os));
  t_mismatches :
    total_mismatches (summary_stats st')
    = total_mismatches (summary_stats st)
      + length (mjoin (outcome_unmatched <$> os));
  t_courses :
    courses_with_mismatches (summary_stats st')
    = courses_with_mismatches (summary_stats st)
      + length (filter (λ u, 0 < length u) (outcome_unmatched <$> os));
  t_withdrawn :
    withdrawn_students (summary_stats st')
    = withdrawn_students (summary_stats st)
      + length (mjoin (outcome_withdrawn <$> os));
  t_unique :
    unique_students (summary_stats st') = unique_students (summary_stats st);
  t_total :
    total_courses (summary_stats st) ≤ total_courses (summary_stats st')
}.

(** ** [get_all_results_df] *)

(** [result["course"]] *)
Definition outcome_course (o : outcome) : string :=
  match o with
  | Success base_name _ _ _ _ => base_name
  | Error base_name _ => base_name
  end.

(** The frames of the successful results, concatenated; None when there
    is none. *)
Definition get_all_results_df (results : list outcome)
  : option (list result_row) :=
  let dfs :=
    omap (λ result,
            match result with
            | Success _ _ data _ _ => Some data
            | Error _ _ => None
            end) results in
  match dfs with
  | [] => None
  | _ => Some (mjoin dfs)
  end.

(** ** [extract_and_merge] *)

(** [s.endswith(suffix)] *)
Fixpoint endswith (s suffix : string) : bool :=
  String.eqb s suffix
  || match s with
     | EmptyString => false
     | String _ s' => endswith s' suffix
     end.

(** The compiled pattern as a backtracking matcher: group 1 is one or
    more of [A-Za-z0-9] followed by one or more digits; after it comes,
    optionally, an underscore and any characters; then the end.  Every
    repetition is greedy, trying its longest run first. *)
Module Re.

(** [[A-Za-z0-9]] *)
Definition is_alnum (c : ascii) : bool :=
  let n := nat_of_ascii c in
  (Nat.leb 48 n && Nat.leb n 57)
  || (Nat.leb 65 n && Nat.leb n 90)
  || (Nat.leb 97 n && Nat.leb n 122).

(** [.]: any character but the newline *)
Definition is_dot (c : ascii) : bool := negb (Ascii.eqb c "010").

(** [$]: at the end of the text, or before a newline that ends it. *)
Definition at_eol (s : string) : bool :=
  String.eqb s "" || String.eqb s (String "010" "").

(** [p*] followed by [k] *)
Fixpoint star {R} (p : ascii → bool) (s : string) (k : string → option R)
  : option R :=
  match s with
  | String c s' =>
      if p c
      then match star p s' k with
           | Some r => Some r
           | None => k s
           end
      else k s
  | EmptyString => k s
  end.

(** [p+] followed by [k] *)
Definition plus {R} (p : ascii → bool) (s : string) (k : string → option R)
  : option R :=
  match s with
  | String c s' => if p c then star p s' k else None
  | EmptyString => None
  end.

(** The optional underscore group and the end: with the group first,
    then without it. *)
Definition suffix_ok (s : string) : bool :=
  match
    match s with
    | String c s' =>
        if Ascii.eqb c "_"
        then star is_dot s' (λ t, if at_eol t then Some tt else None)
        else None
    | EmptyString => None
    end
  with
  | Some _ => true
  | None => at_eol s
  end.

(** [pattern.match(s)], giving [m.group(1)]. *)
Definition match_group1 (s : string) : option string :=
  plus is_alnum s (λ s1,
    plus PyStr.is_digit s1 (λ s2,
      if suffix_ok s2
      then Some (String.substring 0 (String.length s - String.length s2) s)
      else None)).

End Re.

(** Only [.csv], [.xlsx] and [.xls] files are considered. *)
Definition accepted (filename : string) : bool :=
  let lower_name := PyStr.lower filename in
  endswith lower_name ".csv"
  || endswith lower_name ".xlsx"
  || endswith lower_name ".xls".

Definition base_code (filename : string) : string :=
  let base_name := OsPath.splitext_root filename in
  match Re.match_group1 base_name with
  | Some g => PyStr.strip g
  | None => base_name
  end.

Section extract_and_merge.

(** The frames and [pd.concat(df_list, ignore_index=True)]. *)
Context {A : Type} (pd_concat : list A → A).

(** [course_data.setdefault(base_code, []).append(df)] on a dictionary
    kept in insertion order. *)
Fixpoint setdefault_append (key : string) (df : A)
    (course_data : list (string * list A)) : list (string * list A) :=
  match course_data with
  | [] => [(key, [df])]
  | (k, df_list) :: rest =>
      if String.eqb k key then (k, df_list ++ [df]) :: rest
      else (k, df_list) :: setdefault_append key df rest
  end.

(** The body of the traversal for one file of the archive: its name and
    what reading it gives. *)
Definition scan_file (st : list (string * list A) * list string)
    (file : string * (exn + A)) : list (string * list A) * list string :=
  let filename := file.1 in
  if negb (accepted filename) then st
  else
    let code := base_code filename in
    let processed_files := st.2 ++ [filename +:+ " → " +:+ code] in
    match file.2 with
    | inr df => (setdefault_append code df st.1, processed_files)
    | inl _ => (st.1, processed_files)
    end.

Definition merged_message (course : string) (df_list : list A) : string :=
  course +:+ ": " +:+ pretty (length df_list) +:+ " file(s) merged".

(** [files] are the files of the extracted archive in the order of the
    walk.  The result: the files written to the output folder, then
    [processed_files] and [merged_files]. *)
Definition extract_and_merge (files : list (string * (exn + A)))
  : list (string * A) * list string * list string :=
  let st := foldl scan_file ([], []) files in
  let merged := filter (λ cd, 0 < length cd.2) st.1 in
  ((λ cd, (cd.1 +:+ ".csv", pd_concat cd.2)) <$> merged,
   st.2,
   (λ cd, merged_message cd.1 cd.2) <$> merged).

End extract_and_merge.

(** ** Sample uploads *)

(** Two oracles for the names of temporary files. *)
Definition tmp_a (k : nat) : string := "/tmp/tmpa" +:+ pretty k.
Definition tmp_b (k : nat) : string := "/tmp/tmpb" +:+ pretty k.

(** A roster with two blank rows above its header. *)
Definition roster_plain : grid :=
  [[]; [];
   [CStr "SID"; CStr "Name"; CStr "Letter Grade"];
   [CInt 100; CStr "Ann"; CStr "ABSENT"];
   [CInt 101; CStr "Bob"; CStr "ABSENT"];
   [CInt 102; CStr "Cid"; CStr "P"]].

Definition export_plain : frame :=
  Frame ["ID"; "Approved final grade"]
    [[CInt 100; CStr "F"]; [CInt 101; CStr "D"]; [CInt 102; CStr "PASS"];
     [CInt 103; CStr "W"]].

(** A sheet in which no row is a header. *)
Definition roster_headerless : grid :=
  [[CStr "Course list"]; [CInt 100; CStr "A"]].

(** The same student on two roster rows of one course. *)
Definition roster_twice : grid :=
  [[CStr "SID"; CStr "Letter Grade"];
   [CInt 100; CStr "A"];
   [CInt 100; CStr "A"]].

Definition export_once : frame :=
  Frame ["ID"; "Approved final grade"] [[CInt 100; CStr "A"]].

(** The same withdrawn student on two rows of the export. *)
Definition roster_one : grid :=
  [[CStr "SID"; CStr "Letter Grade"]; [CInt 200; CStr "W"]].

Definition export_withdrawn_twice : frame :=
  Frame ["ID"; "Approved final grade"; "Withdrawn"]
    [[CInt 200; CStr "W"; CStr "Withdrawn"];
     [CInt 200; CStr "W"; CStr "Withdrawn"]].

(** A roster without students, and a withdrawn row of the export whose
    identifier is not a number. *)
Definition roster_empty : grid := [[CStr "SID"; CStr "Letter Grade"]].

Definition export_non_numeric : frame :=
  Frame ["ID"; "Approved final grade"]
    [[CStr "abc123"; CStr "W"]].

Definition batch_two : list roster_file :=
  [RosterFile "CS0.xlsx" (inr roster_headerless);
   RosterFile "CS1.xlsx" (inr roster_plain)].

Definition exports_two : list downloaded_file :=
  [DownloadedFile "CS0.csv" (inr export_plain);
   DownloadedFile "CS1.csv" (inr export_plain)].

Definition withdrawn_both : merged_row :=
  row_both (RosterRow "1" "A") (DownloadedRow "1" "W" "").

Definition outcome_withdrawn_twice : outcome :=
  Success "CS1" "Processed 2 students, found 0 mismatches, 2 withdrawn"
    [ResultRow "CS1" "200" (CStr "W") (CStr "W") true true;
     ResultRow "CS1" "200" (CStr "W") (CStr "W") true true]
    [] ["200"; "200"].

(** A roster typed in capitals. *)
Definition roster_capitals : grid :=
  [[CStr "STUDENT ID"; CStr "LETTER GRADE"]; [CInt 100; CStr "A"]].

(** A roster and an export in which no identifier is repeated. *)
Definition roster_frame_plain : frame :=
  Frame ["SID"; "Letter Grade"]
    [[CInt 100; CStr "A"]; [CInt 101; CStr "B"]].

Definition export_frame_plain : frame :=
  Frame ["ID"; "Approved final grade"]
    [[CInt 101; CStr "B"]; [CInt 102; CStr "W"]].

(** ** Predicates on file names *)

Fixpoint all_chars (p : ascii → bool) (s : string) : bool :=
  match s with
  | EmptyString => true
  | String c s' => p c && all_chars p s'
  end.

(** No newline, no slash in a name. *)
Definition no_newline (s : string) : bool := all_chars Re.is_dot s.
Definition no_slash (s : string) : bool :=
  all_chars (λ c, negb (Ascii.eqb c "/")) s.

Fixpoint ends_with_digit (s : string) : bool :=
  match s with
  | EmptyString => false
  | String c EmptyString => PyStr.is_digit c
  | String _ s' => ends_with_digit s'
  end.

Definition starts_alnum (s : string) : bool :=
  match s with
  | EmptyString => false
  | String c _ => Re.is_alnum c
  end.

(** A course code: letters and digits only, two characters or more, the
    last one a digit. *)
Definition is_code (g : string) : bool :=
  all_chars Re.is_alnum g && Nat.leb 2 (String.length g) && ends_with_digit g.

(** The accepted files that could be read, each with its base code. *)
Definition readable {A} (files : list (string * (exn + A)))
  : list (string * A) :=
  omap (λ file,
          if accepted file.1
          then match file.2 with
               | inr df => Some (base_code file.1, df)
               | inl _ => None
               end
          else None) files.

(** The frames read from the files of one base code, in walk order. *)
Definition frames_of {A} (code : string) (files : list (string * (exn + A)))
  : list A :=
  snd <$> filter (λ p, p.1 = code) (readable files).

(** [course_data.get(key, [])] *)
Fixpoint frames_at {A} (key : string) (course_data : list (string * list A))
  : list A :=
  match course_data with
  | [] => []
  | (k, df_list) :: rest =>
      if String.eqb k key then df_list else frames_at key rest
  end.

(** The dictionary [cd] groups the pairs [rd] by their code. *)
Definition groups {A} (cd : list (string * list A)) (rd : list (string * A))
  : Prop :=
  NoDup cd.*1
  ∧ (∀ k, k ∈ cd.*1 ↔ k ∈ rd.*1)
  ∧ (∀ k, frames_at k cd = snd <$> filter (λ p, p.1 = k) rd).

(** A roster with two grade columns whose labels differ by a trailing
    blank only. *)
Definition roster_two_grade_columns : grid :=
  [[CStr "SID"; CStr "Letter Grade"; CStr "Letter Grade "];
   [CInt 100; CStr "A"; CStr "B"]].

(** One student, graded A on the roster and withdrawn on the export. *)
Definition roster_frame_a : frame :=
  Frame ["SID"; "Letter Grade"] [[CInt 1; CStr "A"]].

Definition export_frame_w : frame :=
  Frame ["ID"; "Approved final grade"] [[CInt 1; CStr " w "]].

(** The outcome of the course CS1 of [batch_two]. *)
Definition row_101 : result_row :=
  ResultRow "CS1" "101" (CStr "ABSENT") (CStr "D") false false.

Definition outcome_plain : outcome :=
  Success "CS1" "Processed 4 students, found 1 mismatches, 1 withdrawn"
    [ResultRow "CS1" "100" (CStr "ABSENT") (CStr "F") true false;
     row_101;
     ResultRow "CS1" "102" (CStr "P") (CStr "PASS") true false;
     ResultRow "CS1" "103" CNaN (CStr "W") true true]
    [row_101] ["103"].

(** ** The rules in the words of the specification *)

(** The normalised grade token: trim, uppercase, then "P" and "PASS"
    become "PASS", "ABSENT" and "ABS" become "ABSENT", and any other
    value passes through. *)
Definition normalized_grade_spec (raw : cell) : string :=
  let t := PyStr.upper (PyStr.strip (py_str raw)) in
  if bool_decide (t = "P" ∨ t = "PASS") then "PASS"
  else if bool_decide (t = "ABSENT" ∨ t = "ABS") then "ABSENT"
  else t.

(** The withdrawn flag of a row of the export: the cell of the
    "Withdrawn" column, and the empty text when there is no such column. *)
Definition withdrawn_flag (df_downloaded : frame) (row : list cell) : cell :=
  if has_column "Withdrawn" df_downloaded
  then cell_at df_downloaded "Withdrawn" row
  else CStr "".

(** Text of the ASCII range only. *)
Definition is_ascii (s : string) : bool :=
  all_chars (λ c, Nat.ltb (nat_of_ascii c) 128) s.

(** ** Predicates used in the statements *)



(** All identifiers of the rows of all outcomes, with repetitions. *)
Definition all_ids (res : list outcome) : list string :=
  mjoin (outcome_ids <$> res).

(** [id] is on a row of two different courses of the batch. *)
Definition in_two_courses (id : string) (res : list outcome) : Prop :=
  ∃ i j oi oj,
    i ≠ j ∧ res !! i = Some oi ∧ res !! j = Some oj
    ∧ id ∈ outcome_ids oi ∧ id ∈ outcome_ids oj.

(** * Properties *)

(** ** Strings *)

Section py_str_facts.
Import PyStr.

Lemma upper_ascii_idemp c : upper_ascii (upper_ascii c) = upper_ascii c.
Proof. by destruct c as [[] [] [] [] [] [] [] []]. Qed.

Lemma is_space_upper_ascii c : is_space (upper_ascii c) = is_space c.
Proof. by destruct c as [[] [] [] [] [] [] [] []]. Qed.

Lemma upper_idemp s : upper (upper s) = upper s.
Proof. induction s as [|c s IH]; simpl; [done|]. by rewrite upper_ascii_idemp, IH. Qed.

Lemma lstrip_idemp s : lstrip (lstrip s) = lstrip s.
Proof.
  induction s as [|c s IH]; simpl; [done|].
  destruct (is_space c) eqn:Hc; [done|]. simpl. by rewrite Hc.
Qed.

Lemma rstrip_idemp s : rstrip (rstrip s) = rstrip s.
Proof.
  induction s as [|c s IH]; simpl; [done|].
  destruct (rstrip s) as [|d t] eqn:Ht.
  - destruct (is_space c) eqn:Hc; simpl; [done|]. by rewrite Hc.
  - change (rstrip (String c (String d t))) with
      (match rstrip (String d t) with
       | EmptyString => if is_space c then EmptyString else String c EmptyString
       | u => String c u
       end).
    by rewrite IH.
Qed.

Lemma rstrip_lstrip s : rstrip (lstrip s) = lstrip (rstrip s).
Proof.
  induction s as [|c s IH]; simpl; [done|].
  destruct (is_space c) eqn:Hc.
  - rewrite IH. destruct (rstrip s) as [|d t]; simpl; by rewrite ?Hc.
  - simpl. destruct (rstrip s) as [|d t]; simpl; by rewrite Hc.
Qed.

Lemma strip_idemp s : strip (strip s) = strip s.
Proof.
  unfold strip. by rewrite rstrip_lstrip, lstrip_idemp, rstrip_idemp.
Qed.

Lemma lstrip_upper s : lstrip (upper s) = upper (lstrip s).
Proof.
  induction s as [|c s IH]; simpl; [done|].
  rewrite is_space_upper_ascii. by destruct (is_space c).
Qed.

Lemma rstrip_upper s : rstrip (upper s) = upper (rstrip s).
Proof.
  induction s as [|c s IH]; simpl; [done|].
  rewrite IH, is_space_upper_ascii.
  destruct (rstrip s); simpl; [by destruct (is_space c)|done].
Qed.

Lemma strip_upper s : strip (upper s) = upper (strip s).
Proof. unfold strip. by rewrite rstrip_upper, lstrip_upper. Qed.

(** A cleaned value is a fixed point of the cleaning. *)
Lemma upper_strip_idemp s :
  upper (strip (upper (strip s))) = upper (strip s).
Proof. by rewrite strip_upper, upper_idemp, strip_idemp. Qed.

End py_str_facts.

Lemma eqb_true_iff s t : String.eqb s t = true ↔ s = t.
Proof. apply String.eqb_eq. Qed.

Lemma eqb_false_iff s t : String.eqb s t = false ↔ s ≠ t.
Proof. apply String.eqb_neq. Qed.

(** ** The grade normaliser *)

(** C9. [normalize_grade] is idempotent: normalising the text it returned
    returns that text again, for every grade token (text, missing value
    or number). *)
Theorem normalize_grade_idempotent (g : cell) :
  normalize_grade (CStr (normalize_grade g)) = normalize_grade g.
Proof.
  unfold normalize_grade at 2 3.
  set (t := PyStr.upper (PyStr.strip (py_str g))).
  destruct (PyStr.mem t ["P"; "PASS"]) eqn:Hp; [done|].
  destruct (PyStr.mem t ["ABSENT"; "ABS"]) eqn:Ha; [done|].
  unfold normalize_grade. simpl py_str.
  replace (PyStr.upper (PyStr.strip t)) with t
    by (symmetry; apply upper_strip_idemp).
  by rewrite Hp, Ha.
Qed.

(** ** The header locator *)






(** ** The outer join *)

Lemma insert_by_key_perm m ms : insert_by_key m ms ≡ₚ m :: ms.
Proof.
  induction ms as [|x ms IH]; simpl; [done|].
  destruct (String.leb _ _); [done|]. rewrite IH. apply Permutation_swap.
Qed.

Lemma sort_by_key_perm ms : sort_by_key ms ≡ₚ ms.
Proof.
  induction ms as [|m ms IH]; simpl; [done|].
  by rewrite insert_by_key_perm, IH.
Qed.

Lemma elem_of_join_left right l m :
  m ∈ join_left right l →
  m = row_left l ∨ ∃ r, r ∈ right ∧ dl_id r = ro_sid l ∧ m = row_both l r.
Proof.
  unfold join_left.
  destruct (filter _ right) as [|r0 rs] eqn:Hf.
  - intros ->%list_elem_of_singleton. by left.
  - intros (r & -> & Hr)%list_elem_of_fmap. right. exists r.
    rewrite <- Hf in Hr. apply list_elem_of_filter in Hr as [? ?]. done.
Qed.

(** Every joined row is a roster row alone, a downloaded row alone, or a
    roster row paired with a downloaded row of the same identifier. *)
Lemma elem_of_merge_outer left right m :
  m ∈ merge_outer left right →
  (∃ l, l ∈ left ∧ m = row_left l)
  ∨ (∃ r, r ∈ right ∧ m = row_right r)
  ∨ (∃ l r, l ∈ left ∧ r ∈ right ∧ dl_id r = ro_sid l ∧ m = row_both l r).
Proof.
  unfold merge_outer. rewrite sort_by_key_perm, elem_of_app.
  intros [Hm|Hm].
  - apply list_elem_of_bind in Hm as (l & Hm & Hl).
    apply elem_of_join_left in Hm as [->|(r & Hr & Hk & ->)]; [eauto|].
    right; right. by exists l, r.
  - apply list_elem_of_fmap in Hm as (r & -> & Hr).
    apply list_elem_of_filter in Hr as [_ Hr]. right; left. by exists r.
Qed.

Lemma elem_of_downloaded_sub df r :
  r ∈ downloaded_sub df →
  ∃ a w, dl_approved r = clean_upper a ∧ dl_withdrawn r = clean_upper w.
Proof. intros (row & -> & _)%list_elem_of_fmap. simpl. eauto. Qed.

Lemma clean_upper_idemp v : clean_upper (CStr (clean_upper v)) = clean_upper v.
Proof. apply upper_strip_idemp. Qed.

Lemma is_withdrawn_right i a w l g s :
  is_withdrawn (MergedRow s g i (CStr (clean_upper a)) (CStr (clean_upper w)) l)
  = true
  ↔ clean_upper (CStr (clean_upper a)) = "W"
    ∨ clean_upper (CStr (clean_upper w)) = "WITHDRAWN".
Proof.
  unfold is_withdrawn. simpl.
  by rewrite orb_true_iff, !eqb_true_iff, !clean_upper_idemp.
Qed.

(** ** The loop *)

Lemma filter_fmap {A B} (f : A → B) (P : B → Prop) `{!∀ x, Decision (P x)}
    (l : list A) :
  filter P (f <$> l) = f <$> filter (λ x, P (f x)) l.
Proof.
  induction l as [|x l IH]; [done|].
  rewrite fmap_cons, !filter_cons.
  destruct (decide (P (f x))); by rewrite ?fmap_cons, IH.
Qed.

Lemma tallied_refl st : tallied st [] st.
Proof.
  split; simpl; rewrite ?app_nil_r; try lia; try done.
  by rewrite (right_id_L ∅ (∪)).
Qed.

Lemma tallied_trans st1 os1 st2 os2 st3 :
  tallied st1 os1 st2 → tallied st2 os2 st3 → tallied st1 (os1 ++ os2) st3.
Proof.
  intros [] []. split; rewrite ?fmap_app, ?join_app, ?filter_app, ?length_app.
  - by rewrite (assoc_L (++)); congruence.
  - rewrite (assoc_L (++)); congruence.
  - rewrite list_to_set_app_L, (assoc_L (∪)); congruence.
  - lia.
  - lia.
  - lia.
  - lia.
  - congruence.
  - lia.
Qed.

Lemma tallied_error base_name message st :
  tallied st [Error base_name message] (append_error base_name message st).
Proof.
  split; simpl; rewrite ?app_nil_r; try lia; try done.
  by rewrite (right_id_L ∅ (∪)).
Qed.

Lemma tallied_begin st os st' :
  tallied (begin_course st) os st' → tallied st os st'.
Proof. intros []. split; simpl in *; try done. lia. Qed.

Lemma tallied_reconcile base_name sid_col df_roster df_downloaded st :
  tallied st [course_outcome base_name sid_col df_roster df_downloaded]
          (reconcile base_name sid_col df_roster df_downloaded st).
Proof.
  unfold reconcile, course_outcome.
  set (merged := merged_frame sid_col df_roster df_downloaded).
  set (result := to_result base_name <$> filter _ merged).
  set (unmatched := filter _ result).
  split; simpl; rewrite ?app_nil_r; try done; try lia.
  - rewrite filter_cons, filter_nil. simpl.
    destruct (decide (0 < length unmatched)).
    + by rewrite bool_decide_eq_true_2.
    + by rewrite bool_decide_eq_false_2, app_nil_r.
  - f_equal. f_equal. unfold outcome_ids, result. simpl.
    rewrite filter_fmap, <- list_fmap_compose. done.
  - case_bool_decide; lia.
  - rewrite filter_cons, filter_nil. simpl.
    destruct (decide (0 < length unmatched)).
    + by rewrite bool_decide_eq_true_2.
    + rewrite bool_decide_eq_false_2 by done. simpl. lia.
Qed.

Lemma process_spec mkstemp d st roster :
  ∃ o, outcome_for d roster o ∧ tallied st [o] (process mkstemp d st roster).
Proof.
  unfold process, outcome_for, verdict_of.
  destruct (d !! stem (rf_name roster)) as [downloaded|];
    [|eexists; split; [done|apply tallied_error]].
  unfold read_roster_file.
  destruct (rf_excel roster) as [[msg|msg]|df_raw];
    [eexists; split; [done|apply tallied_begin, tallied_error]..|].
  destruct (find_header df_raw) as [h|];
    [|eexists; split; [by eexists|apply tallied_begin, tallied_error]].
  destruct (rf_reread roster h) as [[msg|msg]|df_roster];
    [eexists; split; [done|apply tallied_begin, tallied_error]..|].
  destruct (df_csv downloaded) as [e|df_downloaded];
    [eexists; split; [done|apply tallied_begin, tallied_error]|].
  unfold check_and_reconcile, examine.
  destruct (sid_column _);
    [|eexists; split; [done|apply tallied_begin, tallied_error]].
  destruct (negb (has_column "Letter Grade" _));
    [eexists; split; [done|apply tallied_begin, tallied_error]|].
  destruct (negb (has_column "ID" _) || _);
    [eexists; split; [done|apply tallied_begin, tallied_error]|].
  destruct (clean_data_raises _ _ _);
    [eexists; split; [done|apply tallied_begin, tallied_error]|].
  eexists; split; [done|apply tallied_begin, tallied_reconcile].
Qed.

Lemma run_spec mkstemp d roster_files st :
  ∃ os, Forall2 (outcome_for d) roster_files os
        ∧ tallied st os (run_from mkstemp d st roster_files).
Proof.
  revert st. induction roster_files as [|roster rest IH]; intros st.
  - exists []. split; [constructor|apply tallied_refl].
  - destruct (process_spec mkstemp d st roster) as (o & Ho & Hst).
    destruct (IH (process mkstemp d st roster)) as (os & Hos & Hrest).
    exists (o :: os). split; [by constructor|].
    apply (tallied_trans _ [o] _ os _ Hst Hrest).
Qed.

Lemma process_total_courses mkstemp d st roster :
  total_courses (summary_stats (process mkstemp d st roster))
  = total_courses (summary_stats st) + (if is_paired d roster then 1 else 0).
Proof.
  unfold process, is_paired.
  destruct (d !! stem (rf_name roster)) as [downloaded|];
    [rewrite bool_decide_eq_true_2 by eauto
    |rewrite bool_decide_eq_false_2 by (by intros [? ?]); simpl; lia].
  destruct (read_roster_file _ _ _) as [[msg|msg]|df_roster]; simpl; [done..|].
  destruct (df_csv downloaded) as [e|df_downloaded]; simpl; [done|].
  unfold check_and_reconcile.
  destruct (sid_column _); [|done].
  destruct (negb (has_column "Letter Grade" _)); [done|].
  destruct (negb (has_column "ID" _) || _); [done|].
  by destruct (clean_data_raises _ _ _).
Qed.

Lemma run_total_courses mkstemp d roster_files st :
  total_courses (summary_stats (run_from mkstemp d st roster_files))
  = total_courses (summary_stats st) + length (filter (λ r, is_paired d r) roster_files).
Proof.
  revert st. induction roster_files as [|roster rest IH]; intros st; simpl.
  - lia.
  - unfold run_from in *. simpl. rewrite IH, process_total_courses, filter_cons.
    destruct (is_paired d roster); simpl; lia.
Qed.

(** Two outcomes a roster can get differ at most in the quoted path. *)
Lemma outcome_for_same d roster o o' :
  outcome_for d roster o → outcome_for d roster o' → same_outcome o o'.
Proof.
  unfold outcome_for, same_outcome.
  destruct (verdict_of d roster); try (intros -> ->; by left).
  intros [p ->] [p' ->]. right. by exists (stem (rf_name roster)), p, p'.
Qed.

Lemma outcomes_same d roster_files os os' :
  Forall2 (outcome_for d) roster_files os →
  Forall2 (outcome_for d) roster_files os' →
  Forall2 same_outcome os os'.
Proof.
  intros H. revert os'. induction H as [|r o rs os Ho _ IH]; intros os' H'.
  - apply Forall2_nil_inv_l in H' as ->. constructor.
  - apply Forall2_cons_inv_l in H' as (o' & os'' & Ho' & H' & ->).
    constructor; [by eapply outcome_for_same|by apply IH].
Qed.

Lemma same_outcome_parts o o' :
  same_outcome o o' →
  outcome_data o = outcome_data o'
  ∧ outcome_unmatched o = outcome_unmatched o'
  ∧ outcome_withdrawn o = outcome_withdrawn o'.
Proof. by intros [->|(c & p & p' & -> & ->)]. Qed.

Lemma same_outcomes_parts os os' :
  Forall2 same_outcome os os' →
  outcome_data <$> os = outcome_data <$> os'
  ∧ outcome_unmatched <$> os = outcome_unmatched <$> os'
  ∧ outcome_withdrawn <$> os = outcome_withdrawn <$> os'.
Proof.
  induction 1 as [|o o' os os' Ho _ (IH1 & IH2 & IH3)]; [done|].
  apply same_outcome_parts in Ho as (H1 & H2 & H3).
  rewrite !fmap_cons. by rewrite H1, H2, H3, IH1, IH2, IH3.
Qed.

Lemma same_outcomes_ids (os os' : list outcome) :
  outcome_data <$> os = outcome_data <$> os' →
  outcome_ids <$> os = outcome_ids <$> os'.
Proof.
  intros H. unfold outcome_ids.
  change (λ o, r_ID_final <$> outcome_data o)
    with (fmap (M:=list) r_ID_final ∘ outcome_data).
  by rewrite !list_fmap_compose, H.
Qed.

(** What a run from the initial state returns, in terms of its outcomes. *)
Lemma compare_grades_spec mkstemp roster_files downloaded_files :
  ∃ os,
    Forall2 (outcome_for (make_downloaded_dict downloaded_files)) roster_files os
    ∧ compare_grades mkstemp roster_files downloaded_files
      = (os,
         Summary
           (length (filter (λ r, is_paired (make_downloaded_dict downloaded_files) r)
                           roster_files))
           (length (filter (λ u, 0 < length u) (outcome_unmatched <$> os)))
           (length (mjoin (outcome_unmatched <$> os)))
           (length (mjoin (outcome_data <$> os)))
           (size (list_to_set (C:=gset string) (mjoin (outcome_ids <$> os))))
           (length (mjoin (outcome_withdrawn <$> os))),
         filter (λ u, 0 < length u) (outcome_unmatched <$> os)).
Proof.
  unfold compare_grades.
  set (d := make_downloaded_dict downloaded_files).
  destruct (run_spec mkstemp d roster_files initial_state) as (os & Hos & []).
  exists os. split; [done|].
  pose proof (run_total_courses mkstemp d roster_files initial_state) as Ht.
  simpl in *. unfold finish.
  rewrite t_results0, t_unmatched0, t_ids0, t_students0, t_mismatches0,
    t_courses0, t_withdrawn0, Ht.
  by rewrite (left_id_L ∅ (∪)).
Qed.

(** ** Error outcomes and the summary *)

(** C3. A course whose outcome is an error adds nothing to the summary
    except to [total_courses]: the other five statistics are those of the
    batch without that roster. *)
Theorem error_course_contributes_nothing
    mkstemp mkstemp' rs1 roster rs2 downloaded_files base_name message :
  (compare_grades mkstemp (rs1 ++ roster :: rs2) downloaded_files).1.1
    !! length rs1 = Some (Error base_name message) →
  let s := (compare_grades mkstemp (rs1 ++ roster :: rs2) downloaded_files).1.2 in
  let s' := (compare_grades mkstemp' (rs1 ++ rs2) downloaded_files).1.2 in
  total_students s = total_students s'
  ∧ unique_students s = unique_students s'
  ∧ total_mismatches s = total_mismatches s'
  ∧ courses_with_mismatches s = courses_with_mismatches s'
  ∧ withdrawn_students s = withdrawn_students s'.
Proof.
  destruct (compare_grades_spec mkstemp (rs1 ++ roster :: rs2) downloaded_files)
    as (os & Hos & ->).
  destruct (compare_grades_spec mkstemp' (rs1 ++ rs2) downloaded_files)
    as (os' & Hos' & ->).
  simpl. intros Hlook.
  apply Forall2_app_inv_l in Hos as (os1 & osx & H1 & Hx & ->).
  apply Forall2_cons_inv_l in Hx as (o & os2 & Ho & H2 & ->).
  apply Forall2_app_inv_l in Hos' as (os1' & os2' & H1' & H2' & ->).
  rewrite (Forall2_length _ _ _ H1), list_lookup_middle in Hlook by done.
  injection Hlook as ->.
  destruct (same_outcomes_parts _ _ (outcomes_same _ _ _ _ H1 H1'))
    as (Hd1 & Hu1 & Hw1).
  destruct (same_outcomes_parts _ _ (outcomes_same _ _ _ _ H2 H2'))
    as (Hd2 & Hu2 & Hw2).
  pose proof (same_outcomes_ids _ _ Hd1) as Hi1.
  pose proof (same_outcomes_ids _ _ Hd2) as Hi2.
  rewrite !fmap_app, !fmap_cons, !join_app, !filter_app. simpl.
  rewrite Hd1, Hd2, Hu1, Hu2, Hw1, Hw2, Hi1, Hi2. done.
Qed.

(** ** Successful outcomes *)

Lemma outcome_for_success d roster o :
  outcome_for d roster o → is_success o = true →
  ∃ base_name sid_col df_roster df_downloaded,
    o = course_outcome base_name sid_col df_roster df_downloaded.
Proof.
  unfold outcome_for. destruct (verdict_of d roster).
  - by intros ->.
  - by intros [p ->].
  - by intros ->.
  - intros -> _. eauto.
Qed.

Lemma outcomes_success d roster_files os o :
  Forall2 (outcome_for d) roster_files os → o ∈ os → is_success o = true →
  ∃ base_name sid_col df_roster df_downloaded,
    o = course_outcome base_name sid_col df_roster df_downloaded.
Proof.
  intros H Ho Hs. apply list_elem_of_lookup in Ho as [i Hi].
  destruct (Forall2_lookup_r _ _ _ _ _ H Hi) as (roster & _ & Hfor).
  by eapply outcome_for_success.
Qed.

Lemma length_filter_split {A} (p : A → bool) (l : list A) :
  length l
  = length (filter (λ x, negb (p x)) l) + length (filter (λ x, p x) l).
Proof.
  induction l as [|x l IH]; [done|].
  rewrite !filter_cons. destruct (p x); simpl; lia.
Qed.

Lemma filter_comm {A} (P Q : A → Prop)
    `{!∀ x, Decision (P x)} `{!∀ x, Decision (Q x)} (l : list A) :
  filter P (filter Q l) = filter Q (filter P l).
Proof.
  induction l as [|x l IH]; [done|].
  rewrite !filter_cons.
  destruct (decide (Q x)), (decide (P x)); rewrite ?filter_cons;
    repeat case_decide; try done; by rewrite IH.
Qed.

Lemma sum_unmatched_success (os : list outcome) :
  length (mjoin (outcome_unmatched <$> os))
  = sum_list ((λ o, length (outcome_unmatched o))
                <$> filter (λ o, is_success o) os).
Proof.
  induction os as [|o os IH]; [done|].
  rewrite fmap_cons, filter_cons. simpl. rewrite length_app, IH.
  by destruct o.
Qed.

(** C8. In every successful outcome the number of rows is the number of
    unmatched rows plus the number of rows marked matched, and
    [total_mismatches] is the sum of the numbers of unmatched rows over
    the successful outcomes. *)
Theorem mismatch_accounting mkstemp roster_files downloaded_files :
  let res := (compare_grades mkstemp roster_files downloaded_files).1.1 in
  let s := (compare_grades mkstemp roster_files downloaded_files).1.2 in
  (∀ o, o ∈ res → is_success o = true →
     length (outcome_data o)
     = length (outcome_unmatched o)
       + length (filter (λ r, r_matched r) (outcome_data o)))
  ∧ total_mismatches s
    = sum_list ((λ o, length (outcome_unmatched o))
                  <$> filter (λ o, is_success o) res).
Proof.
  destruct (compare_grades_spec mkstemp roster_files downloaded_files)
    as (os & Hos & ->).
  simpl. split; [|apply sum_unmatched_success].
  intros o Ho Hs.
  destruct (outcomes_success _ _ _ _ Hos Ho Hs) as (b & c & r & d & ->).
  simpl. apply length_filter_split.
Qed.

(** ** Students *)

Lemma list_to_set_remove_dups (l : list string) :
  list_to_set (C:=gset string) (remove_dups l) = list_to_set l.
Proof.
  apply set_eq. intros x. by rewrite !elem_of_list_to_set, elem_of_remove_dups.
Qed.

Lemma length_remove_dups (l : list string) :
  length (remove_dups l) ≤ length l
  ∧ (length (remove_dups l) = length l ↔ NoDup l).
Proof.
  induction l as [|x l [IHle IHeq]]; simpl.
  - split; [lia|]. split; [constructor|done].
  - rewrite NoDup_cons. destruct (decide_rel _ _ _); simpl.
    + split; [lia|]. split; [lia|]. by intros [? _].
    + split; [lia|]. rewrite <- IHeq. split; [intros; split; [done|lia]|]. lia.
Qed.

Lemma size_list_to_set_le (l : list string) :
  size (list_to_set (C:=gset string) l) ≤ length l
  ∧ (size (list_to_set (C:=gset string) l) = length l ↔ NoDup l).
Proof.
  rewrite <- list_to_set_remove_dups,
    (size_list_to_set _ (NoDup_remove_dups l)).
  apply length_remove_dups.
Qed.

Lemma length_all_ids (os : list outcome) :
  length (all_ids os) = length (mjoin (outcome_data <$> os)).
Proof.
  unfold all_ids. induction os as [|o os IH]; [done|].
  rewrite !fmap_cons. simpl. rewrite !length_app, IH.
  unfold outcome_ids. by rewrite length_fmap.
Qed.

(** C6 (amended). [unique_students] is at most [total_students], and the
    two are equal exactly when no identifier is on more than one row of
    the outcomes of the batch, be it in two courses or twice in one. *)
Theorem unique_le_total mkstemp roster_files downloaded_files :
  let res := (compare_grades mkstemp roster_files downloaded_files).1.1 in
  let s := (compare_grades mkstemp roster_files downloaded_files).1.2 in
  unique_students s ≤ total_students s
  ∧ (unique_students s = total_students s ↔ NoDup (all_ids res)).
Proof.
  destruct (compare_grades_spec mkstemp roster_files downloaded_files)
    as (os & Hos & ->).
  simpl. rewrite <- length_all_ids. apply size_list_to_set_le.
Qed.

(** ** Determinism *)

Lemma process_ext mkstemp mkstemp' d st roster :
  (∀ k, mkstemp k = mkstemp' k) →
  process mkstemp d st roster = process mkstemp' d st roster.
Proof. intros H. unfold process. by rewrite H. Qed.

Lemma run_from_ext mkstemp mkstemp' d roster_files st :
  (∀ k, mkstemp k = mkstemp' k) →
  run_from mkstemp d st roster_files = run_from mkstemp' d st roster_files.
Proof.
  intros H. revert st. unfold run_from.
  induction roster_files as [|r rs IH]; intros st; simpl; [done|].
  by rewrite (process_ext _ _ _ _ _ H), IH.
Qed.

(** C10 (amended). Two runs on the same uploads return the same summary
    and the same collected unmatched rows, and outcome sequences that
    agree except for the path quoted in a header-not-found message; with
    the same temporary file names the two runs return the same. *)
Theorem deterministic_up_to_temp_paths
    mkstemp mkstemp' roster_files downloaded_files :
  let run := compare_grades mkstemp roster_files downloaded_files in
  let run' := compare_grades mkstemp' roster_files downloaded_files in
  Forall2 same_outcome run.1.1 run'.1.1
  ∧ run.1.2 = run'.1.2
  ∧ run.2 = run'.2
  ∧ ((∀ k, mkstemp k = mkstemp' k) → run = run').
Proof.
  intros run run'.
  assert ((∀ k, mkstemp k = mkstemp' k) → run = run') as Hext.
  { intros H. unfold run, run', compare_grades.
    by rewrite (run_from_ext _ _ _ _ _ H). }
  revert Hext. unfold run, run'. clear run run'.
  destruct (compare_grades_spec mkstemp roster_files downloaded_files)
    as (os & Hos & ->).
  destruct (compare_grades_spec mkstemp' roster_files downloaded_files)
    as (os' & Hos' & ->).
  pose proof (outcomes_same _ _ _ _ Hos Hos') as Hsame.
  destruct (same_outcomes_parts _ _ Hsame) as (Hd & Hu & Hw).
  pose proof (same_outcomes_ids _ _ Hd) as Hi.
  simpl. rewrite Hd, Hu, Hw, Hi. intros Hext. by repeat split.
Qed.

(** ** The admission filter *)

(** The rows of an outcome carry numeric identifiers only. *)
Lemma rows_are_numeric mkstemp roster_files downloaded_files o r :
  o ∈ (compare_grades mkstemp roster_files downloaded_files).1.1 →
  r ∈ outcome_data o → PyStr.isnumeric (r_ID_final r) = true.
Proof.
  destruct (compare_grades_spec mkstemp roster_files downloaded_files)
    as (os & Hos & ->).
  simpl. intros Ho Hr. destruct o as [b msg data un wd|]; [|by apply elem_of_nil in Hr].
  destruct (outcomes_success _ _ _ _ Hos Ho eq_refl) as (b' & c & fr & fd & Heq).
  injection Heq as _ _ -> _ _. simpl in Hr.
  apply list_elem_of_fmap in Hr as (m & -> & Hm).
  apply list_elem_of_filter in Hm as [Hm _]. simpl. by apply Is_true_true.
Qed.

(** C2. The behaviour of the code on a withdrawn row whose identifier is
    not a number: the row is kept out of the rows of the outcome and of
    the student counts, yet it is listed in [withdrawn] and counted in
    [withdrawn_students]. *)
Theorem non_numeric_withdrawn_row_is_counted :
  compare_grades tmp_a
    [RosterFile "CS1.xlsx" (inr roster_empty)]
    [DownloadedFile "CS1.csv" (inr export_non_numeric)]
  = ([Success "CS1" "Processed 0 students, found 0 mismatches, 1 withdrawn"
        [] [] ["abc123"]],
     Summary 1 0 0 0 0 1,
     []).
Proof. vm_compute. reflexivity. Qed.

Lemma error_course_witness :
  let s := (compare_grades tmp_a batch_two exports_two).1.2 in
  let s' := (compare_grades tmp_b (drop 1 batch_two) exports_two).1.2 in
  total_students s = total_students s'
  ∧ unique_students s = unique_students s'
  ∧ total_mismatches s = total_mismatches s'
  ∧ courses_with_mismatches s = courses_with_mismatches s'
  ∧ withdrawn_students s = withdrawn_students s'.
Proof.
  apply (error_course_contributes_nothing tmp_a tmp_b []
           (RosterFile "CS0.xlsx" (inr roster_headerless))
           [RosterFile "CS1.xlsx" (inr roster_plain)] exports_two
           "CS0" (header_not_found "/tmp/tmpa0")).
  vm_compute. reflexivity.
Defined.

Lemma mismatch_accounting_witness :
  length (outcome_data outcome_withdrawn_twice)
  = length (outcome_unmatched outcome_withdrawn_twice)
    + length (filter (λ r, r_matched r) (outcome_data outcome_withdrawn_twice)).
Proof.
  apply (proj1 (mismatch_accounting tmp_a
                  [RosterFile "CS1.xlsx" (inr roster_one)]
                  [DownloadedFile "CS1.csv" (inr export_withdrawn_twice)])
               outcome_withdrawn_twice).
  - vm_compute. apply list_elem_of_here.
  - reflexivity.
Defined.

Lemma deterministic_witness :
  compare_grades tmp_a batch_two exports_two
  = compare_grades tmp_a batch_two exports_two.
Proof.
  apply (proj2 (proj2 (proj2
           (deterministic_up_to_temp_paths tmp_a tmp_a batch_two exports_two)))).
  intros k. reflexivity.
Defined.

(** The same uploads under two namings of the temporary files: the
    header-not-found message differs. *)
Lemma temp_path_counterexample :
  compare_grades tmp_a batch_two exports_two
  ≠ compare_grades tmp_b batch_two exports_two.
Proof. vm_compute. discriminate. Qed.

Lemma run_twice :
  compare_grades tmp_a
    [RosterFile "CS1.xlsx" (inr roster_twice)]
    [DownloadedFile "CS1.csv" (inr export_once)]
  = ([Success "CS1" "Processed 2 students, found 0 mismatches, 0 withdrawn"
        [ResultRow "CS1" "100" (CStr "A") (CStr "A") true false;
         ResultRow "CS1" "100" (CStr "A") (CStr "A") true false]
        [] []],
     Summary 1 0 0 2 1 0,
     []).
Proof. vm_compute. reflexivity. Qed.

(** One course lists student 100 twice: two rows, one student, and no
    student in two courses. *)
Lemma unique_total_counterexample :
  ¬ (let run := compare_grades tmp_a
                  [RosterFile "CS1.xlsx" (inr roster_twice)]
                  [DownloadedFile "CS1.csv" (inr export_once)] in
     unique_students run.1.2 ≤ total_students run.1.2
     ∧ (unique_students run.1.2 = total_students run.1.2
        ↔ ¬ ∃ id, in_two_courses id run.1.1)).
Proof.
  rewrite run_twice. cbn. intros [_ [_ Heq]].
  enough (1 = 2) by lia. apply Heq.
  intros (id & i & j & oi & oj & Hij & Hi & Hj & _).
  apply lookup_lt_Some in Hi, Hj. simpl in Hi, Hj. lia.
Qed.

(** A student withdrawn on two rows of one course is listed twice. *)
Lemma withdrawn_ids_counterexample :
  ¬ (∀ o, o ∈ (compare_grades tmp_a
                 [RosterFile "CS1.xlsx" (inr roster_one)]
                 [DownloadedFile "CS1.csv" (inr export_withdrawn_twice)]).1.1 →
          is_success o = true → NoDup (outcome_withdrawn o)).
Proof.
  intros H. specialize (H outcome_withdrawn_twice).
  assert (NoDup (outcome_withdrawn outcome_withdrawn_twice)) as Hnd.
  { apply H; [vm_compute; apply list_elem_of_here|reflexivity]. }
  simpl in Hnd. apply NoDup_cons in Hnd as [Hn _]. apply Hn, list_elem_of_here.
Qed.

(** * Further properties of the code *)

(** ** The shape of a run *)

Lemma outcome_for_course d roster o :
  outcome_for d roster o → outcome_course o = stem (rf_name roster).
Proof.
  unfold outcome_for. destruct (verdict_of d roster).
  - by intros ->.
  - by intros [p ->].
  - by intros ->.
  - by intros ->.
Qed.

(** The results hold one outcome per roster file, in the order of the
    roster files, each under the stem of its roster's name. *)
Theorem one_outcome_per_roster mkstemp roster_files downloaded_files :
  outcome_course <$> (compare_grades mkstemp roster_files downloaded_files).1.1
  = (λ r, stem (rf_name r)) <$> roster_files.
Proof.
  destruct (compare_grades_spec mkstemp roster_files downloaded_files)
    as (os & Hos & ->).
  simpl. induction Hos as [|r o rs os Ho _ IH]; [done|].
  rewrite !fmap_cons, IH. f_equal. by eapply outcome_for_course.
Qed.

(** ** The dictionary of downloaded files *)

Lemma make_downloaded_dict_snoc dls f :
  make_downloaded_dict (dls ++ [f])
  = <[stem (df_name f) := f]> (make_downloaded_dict dls).
Proof. unfold make_downloaded_dict. by rewrite foldl_app. Qed.

Lemma make_downloaded_dict_lookup downloaded_files key :
  make_downloaded_dict downloaded_files !! key
  = last (filter (λ f, stem (df_name f) = key) downloaded_files).
Proof.
  induction downloaded_files as [|f dls IH] using rev_ind; [done|].
  rewrite make_downloaded_dict_snoc, filter_app, filter_cons, filter_nil.
  destruct (decide (stem (df_name f) = key)) as [<-|Hne].
  - by rewrite lookup_insert_eq, last_snoc.
  - by rewrite lookup_insert_ne, app_nil_r.
Qed.

(** Looking a stem up gives the last downloaded file of that stem, and
    nothing when there is none. *)
Theorem downloaded_dict_last_wins downloaded_files key :
  make_downloaded_dict downloaded_files !! key
  = last (filter (λ f, stem (df_name f) = key) downloaded_files).
Proof. apply make_downloaded_dict_lookup. Qed.

Lemma is_paired_stems downloaded_files roster :
  is_paired (make_downloaded_dict downloaded_files) roster
  ↔ stem (rf_name roster) ∈ (λ f, stem (df_name f)) <$> downloaded_files.
Proof.
  unfold is_paired. rewrite bool_decide_spec, make_downloaded_dict_lookup.
  rewrite list_elem_of_fmap. split.
  - intros [f Hf]. apply last_Some in Hf as [l' Hf].
    assert (f ∈ filter (λ f0, stem (df_name f0) = stem (rf_name roster))
                   downloaded_files) as Hin
      by (rewrite Hf; apply elem_of_app; right; apply list_elem_of_here).
    apply list_elem_of_filter in Hin as [? ?]. by exists f.
  - intros (f & Hk & Hin).
    assert (f ∈ filter (λ f0, stem (df_name f0) = stem (rf_name roster))
                   downloaded_files) as Hf
      by (by apply list_elem_of_filter).
    destruct (filter _ downloaded_files) as [|x l] using rev_ind;
      [by apply elem_of_nil in Hf|].
    rewrite last_snoc. by eexists.
Qed.

(** [total_courses] is the number of roster files whose stem is the stem
    of some downloaded file. *)
Theorem total_courses_counts_paired mkstemp roster_files downloaded_files :
  total_courses (compare_grades mkstemp roster_files downloaded_files).1.2
  = length (filter (λ r, stem (rf_name r)
                         ∈ (λ f, stem (df_name f)) <$> downloaded_files)
                   roster_files).
Proof.
  destruct (compare_grades_spec mkstemp roster_files downloaded_files)
    as (os & Hos & ->).
  simpl. f_equal. apply list_filter_iff. intros r. apply is_paired_stems.
Qed.

(** ** The summary and the collected unmatched frames *)

Lemma length_join_nonempty {A} (ls : list (list A)) :
  length (mjoin (filter (λ u, 0 < length u) ls)) = length (mjoin ls).
Proof.
  induction ls as [|u ls IH]; [done|].
  rewrite filter_cons. destruct (decide (0 < length u)) as [|Hu]; simpl.
  - by rewrite !length_app, IH.
  - rewrite length_app, IH. lia.
Qed.

Lemma length_nonempty_le_join {A} (ls : list (list A)) :
  length (filter (λ u, 0 < length u) ls) ≤ length (mjoin ls).
Proof.
  induction ls as [|u ls IH]; [done|].
  rewrite filter_cons. simpl. rewrite length_app.
  destruct (decide (0 < length u)); simpl; lia.
Qed.

Lemma outcome_for_unmatched d roster o r :
  outcome_for d roster o → r ∈ outcome_unmatched o →
  r ∈ outcome_data o ∧ r_matched r = false.
Proof.
  unfold outcome_for. destruct (verdict_of d roster);
    try (intros -> Hr; by apply elem_of_nil in Hr).
  - intros [p ->] Hr. by apply elem_of_nil in Hr.
  - intros ->. simpl. intros [Hm Hr]%list_elem_of_filter. split; [done|].
    by destruct (r_matched r).
Qed.

(** [all_unmatched] holds the non-empty unmatched frames of the outcomes,
    in course order; their number is [courses_with_mismatches], their
    rows number [total_mismatches], and each of their rows is marked
    unmatched. *)
Theorem all_unmatched_frames mkstemp roster_files downloaded_files :
  let res := (compare_grades mkstemp roster_files downloaded_files).1.1 in
  let s := (compare_grades mkstemp roster_files downloaded_files).1.2 in
  let un := (compare_grades mkstemp roster_files downloaded_files).2 in
  un = filter (λ u, 0 < length u) (outcome_unmatched <$> res)
  ∧ courses_with_mismatches s = length un
  ∧ total_mismatches s = length (mjoin un)
  ∧ Forall (Forall (λ r, r_matched r = false)) un.
Proof.
  destruct (compare_grades_spec mkstemp roster_files downloaded_files)
    as (os & Hos & ->).
  simpl. repeat split; [by rewrite length_join_nonempty|].
  apply Forall_forall. intros u [_ Hu]%list_elem_of_filter.
  apply list_elem_of_fmap in Hu as (o & -> & Ho).
  apply list_elem_of_lookup in Ho as [i Hi].
  destruct (Forall2_lookup_r _ _ _ _ _ Hos Hi) as (roster & _ & Hfor).
  apply Forall_forall. intros r Hr.
  by destruct (outcome_for_unmatched _ _ _ _ Hfor Hr).
Qed.

Lemma outcome_for_paired d roster o :
  outcome_for d roster o → is_success o = true → is_paired d roster = true.
Proof.
  unfold outcome_for, verdict_of, is_paired.
  destruct (d !! stem (rf_name roster)); [|by intros ->].
  intros _ _. apply bool_decide_eq_true_2. eauto.
Qed.

Lemma outcome_for_lengths d roster o :
  outcome_for d roster o →
  length (outcome_unmatched o) ≤ length (outcome_data o)
  ∧ (0 < length (outcome_unmatched o) → is_paired d roster = true).
Proof.
  intros Hfor. split.
  - revert Hfor. unfold outcome_for. destruct (verdict_of d roster);
      try (by intros ->); [by intros [p ->]|].
    intros ->. simpl. apply length_filter.
  - intros Hlen. apply (outcome_for_paired _ _ _ Hfor).
    destruct o; [done|]. simpl in Hlen. lia.
Qed.

(** The counters of the summary are ordered: courses with mismatches are
    at most the courses attempted and at most the mismatches, mismatches
    are at most the rows, and the courses attempted are at most the
    roster files. *)
Theorem summary_bounds mkstemp roster_files downloaded_files :
  let s := (compare_grades mkstemp roster_files downloaded_files).1.2 in
  courses_with_mismatches s ≤ total_courses s
  ∧ courses_with_mismatches s ≤ total_mismatches s
  ∧ total_mismatches s ≤ total_students s
  ∧ total_courses s ≤ length roster_files.
Proof.
  destruct (compare_grades_spec mkstemp roster_files downloaded_files)
    as (os & Hos & ->).
  simpl. split; [|split; [apply length_nonempty_le_join|split; [|apply length_filter]]].
  - induction Hos as [|r o rs os Ho _ IH]; [done|].
    rewrite fmap_cons, !filter_cons.
    destruct (outcome_for_lengths _ _ _ Ho) as [_ Hp].
    destruct (decide (0 < length (outcome_unmatched o))) as [Hlen|Hlen].
    + rewrite (Hp Hlen). simpl. lia.
    + destruct (is_paired _ r); simpl; lia.
  - induction Hos as [|r o rs os Ho _ IH]; [done|].
    rewrite !fmap_cons. simpl. rewrite !length_app.
    destruct (outcome_for_lengths _ _ _ Ho) as [Hle _]. lia.
Qed.

(** [total_students] and [withdrawn_students] are the numbers of rows
    and of withdrawn identifiers summed over the successful outcomes. *)
Theorem students_and_withdrawn_sums mkstemp roster_files downloaded_files :
  let res := (compare_grades mkstemp roster_files downloaded_files).1.1 in
  let s := (compare_grades mkstemp roster_files downloaded_files).1.2 in
  total_students s
  = sum_list ((λ o, length (outcome_data o)) <$> filter (λ o, is_success o) res)
  ∧ withdrawn_students s
    = sum_list ((λ o, length (outcome_withdrawn o))
                  <$> filter (λ o, is_success o) res).
Proof.
  destruct (compare_grades_spec mkstemp roster_files downloaded_files)
    as (os & Hos & ->).
  simpl. clear Hos. split.
  - induction os as [|o os IH]; [done|].
    rewrite fmap_cons, filter_cons. simpl. rewrite length_app, IH. by destruct o.
  - induction os as [|o os IH]; [done|].
    rewrite fmap_cons, filter_cons. simpl. rewrite length_app, IH. by destruct o.
Qed.

(** ** The rows of an outcome *)

Lemma elem_of_course_data base_name sid_col df_roster df_downloaded r :
  r ∈ outcome_data (course_outcome base_name sid_col df_roster df_downloaded) ↔
  ∃ m, r = to_result base_name m
       ∧ m ∈ merge_outer (roster_sub sid_col df_roster)
                         (downloaded_sub df_downloaded)
       ∧ id_present m = true
       ∧ PyStr.isnumeric (ID_final m) = true.
Proof.
  simpl. unfold merged_frame. rewrite list_elem_of_fmap. split.
  - intros (m & -> & [Hn [Hp Hm]%list_elem_of_filter]%list_elem_of_filter).
    exists m. by rewrite <- !Is_true_true.
  - intros (m & -> & Hm & Hp & Hn). exists m. split; [done|].
    rewrite !list_elem_of_filter, !Is_true_true. done.
Qed.

Lemma merge_outer_both left right m :
  m ∈ merge_outer left right → m_merge m = both →
  ∃ l r, l ∈ left ∧ r ∈ right ∧ dl_id r = ro_sid l ∧ m = row_both l r.
Proof.
  intros [(l & _ & ->)|[(r & _ & ->)|H]]%elem_of_merge_outer; by try done.
Qed.

(** ** The students of a course *)

Lemma isnumeric_present s :
  PyStr.isnumeric s = true → s ≠ "" ∧ PyStr.lower s ≠ "nan".
Proof.
  destruct s as [|c s]; [done|]. simpl. intros [Hc _]%andb_true_iff.
  split; [done|]. intros [= Hn _]. revert Hc Hn.
  by destruct c as [[] [] [] [] [] [] [] []].
Qed.

Lemma elem_of_roster_sub sid_col df l :
  l ∈ roster_sub sid_col df → PyStr.strip (ro_sid l) = ro_sid l.
Proof. intros (row & -> & _)%list_elem_of_fmap. apply strip_idemp. Qed.

Lemma elem_of_downloaded_sub_id df r :
  r ∈ downloaded_sub df → PyStr.strip (dl_id r) = dl_id r.
Proof. intros (row & -> & _)%list_elem_of_fmap. apply strip_idemp. Qed.

Lemma merge_outer_keys left right m :
  m ∈ merge_outer left right →
  join_key m ∈ (ro_sid <$> left) ∨ join_key m ∈ (dl_id <$> right).
Proof.
  intros [(l & Hl & ->)|[(r & Hr & ->)|(l & r & Hl & _ & _ & ->)]]%elem_of_merge_outer.
  - left. apply list_elem_of_fmap. by exists l.
  - right. apply list_elem_of_fmap. by exists r.
  - left. apply list_elem_of_fmap. by exists l.
Qed.

Lemma merge_outer_left left right l :
  l ∈ left → ∃ m, m ∈ merge_outer left right ∧ join_key m = ro_sid l.
Proof.
  intros Hl.
  assert (∃ m, m ∈ join_left right l ∧ join_key m = ro_sid l) as (m & Hm & Hk).
  { unfold join_left. destruct (filter _ right) as [|r rs].
    - exists (row_left l). split; [apply list_elem_of_here|done].
    - exists (row_both l r). split; [apply list_elem_of_here|done]. }
  exists m. split; [|done].
  unfold merge_outer. rewrite sort_by_key_perm, elem_of_app. left.
  apply list_elem_of_bind. by exists l.
Qed.

Lemma merge_outer_right left right r :
  r ∈ right → ∃ m, m ∈ merge_outer left right ∧ join_key m = dl_id r.
Proof.
  intros Hr.
  destruct (decide (dl_id r ∈ ro_sid <$> left)) as [Hin|Hout].
  - apply list_elem_of_fmap in Hin as (l & Hk & Hl).
    exists (row_both l r). split; [|done].
    unfold merge_outer. rewrite sort_by_key_perm, elem_of_app. left.
    apply list_elem_of_bind. exists l. split; [|done].
    unfold join_left.
    assert (r ∈ filter (λ r0, dl_id r0 = ro_sid l) right) as Hf
      by (by apply list_elem_of_filter).
    destruct (filter _ right) as [|r0 rs]; [by apply elem_of_nil in Hf|].
    apply list_elem_of_fmap. by exists r.
  - exists (row_right r). split; [|done].
    unfold merge_outer. rewrite sort_by_key_perm, elem_of_app. right.
    apply list_elem_of_fmap. exists r. split; [done|].
    by apply list_elem_of_filter.
Qed.

Lemma ID_final_clean sid_col df_roster df_downloaded m :
  m ∈ merge_outer (roster_sub sid_col df_roster) (downloaded_sub df_downloaded) →
  ID_final m = join_key m.
Proof.
  intros [(l & Hl & ->)|[(r & Hr & ->)|(l & r & Hl & _ & _ & ->)]]%elem_of_merge_outer;
    unfold ID_final, join_key; simpl;
    eauto using elem_of_roster_sub, elem_of_downloaded_sub_id.
Qed.

(** The identifiers on the rows of a reconciled course are the numeric
    identifiers of the roster together with those of the export: no
    student of either table is lost, none is invented. *)
Theorem outcome_ids_are_union base_name sid_col df_roster df_downloaded st :
  ∃ o, results (reconcile base_name sid_col df_roster df_downloaded st)
       = results st ++ [o]
       ∧ ∀ id, id ∈ outcome_ids o ↔
               PyStr.isnumeric id = true
               ∧ (id ∈ ro_sid <$> roster_sub sid_col df_roster
                  ∨ id ∈ dl_id <$> downloaded_sub df_downloaded).
Proof.
  exists (course_outcome base_name sid_col df_roster df_downloaded).
  split; [done|]. intros id. unfold outcome_ids. rewrite list_elem_of_fmap.
  split.
  - intros (r & -> & (m & -> & Hm & _ & Hn)%elem_of_course_data). simpl.
    split; [done|]. rewrite (ID_final_clean _ _ _ _ Hm).
    by apply merge_outer_keys.
  - intros [Hn Hid].
    assert (∃ m, m ∈ merge_outer (roster_sub sid_col df_roster)
                                  (downloaded_sub df_downloaded)
                 ∧ join_key m = id) as (m & Hm & Hk).
    { destruct Hid as [(l & -> & Hl)%list_elem_of_fmap|(r & -> & Hr)%list_elem_of_fmap].
      - by apply merge_outer_left.
      - by apply merge_outer_right. }
    pose proof (ID_final_clean _ _ _ _ Hm) as Hf. rewrite Hk in Hf.
    exists (to_result base_name m). split; [done|].
    apply elem_of_course_data. exists m. rewrite Hf.
    repeat split; [done| |done].
    unfold id_present. rewrite Hf.
    destruct (isnumeric_present _ Hn) as [H1 H2].
    apply eqb_false_iff in H1, H2. by rewrite H1, H2.
Qed.

Lemma filter_key_unique {A} (f : A → string) (k : string) (l : list A) :
  NoDup (f <$> l) → length (filter (λ x, f x = k) l) ≤ 1.
Proof.
  induction l as [|x l IH]; [simpl; lia|].
  rewrite fmap_cons, NoDup_cons, filter_cons. intros [Hx Hl].
  destruct (decide (f x = k)) as [<-|]; [|by apply IH].
  assert (filter (λ y, f y = f x) l = []) as ->; [|simpl; lia].
  destruct (filter _ l) as [|y t] eqn:Hf; [done|]. exfalso. apply Hx.
  assert (y ∈ filter (λ y, f y = f x) l) as [Hk Hy]%list_elem_of_filter
    by (rewrite Hf; apply list_elem_of_here).
  apply list_elem_of_fmap. by exists y.
Qed.

Lemma join_left_keys right l :
  NoDup (dl_id <$> right) → join_key <$> join_left right l = [ro_sid l].
Proof.
  intros Hnd. unfold join_left.
  pose proof (filter_key_unique dl_id (ro_sid l) right Hnd) as Hlen.
  destruct (filter _ right) as [|r [|r' rs]]; [done..|]. simpl in Hlen. lia.
Qed.

Lemma merge_outer_keys_NoDup left right :
  NoDup (ro_sid <$> left) → NoDup (dl_id <$> right) →
  NoDup (join_key <$> merge_outer left right).
Proof.
  intros Hl Hr. unfold merge_outer. rewrite sort_by_key_perm, fmap_app.
  assert (join_key <$> (left ≫= join_left right) = ro_sid <$> left) as ->.
  { clear Hl. induction left as [|l left IH]; [done|].
    rewrite bind_cons, fmap_app, IH, join_left_keys by done. done. }
  rewrite <- list_fmap_compose.
  change (join_key ∘ row_right) with dl_id.
  apply NoDup_app. split; [done|]. split.
  - intros k Hk (r & -> & Hin)%list_elem_of_fmap.
    by apply list_elem_of_filter in Hin as [Hout _].
  - eapply sublist_NoDup; [exact Hr|]. apply fmap_sublist, sublist_filter.
Qed.

(** When no identifier is repeated within the roster nor within the
    export, no identifier is repeated on the rows of the outcome: each
    student has one row. *)
Theorem one_row_per_student base_name sid_col df_roster df_downloaded st :
  NoDup (ro_sid <$> roster_sub sid_col df_roster) →
  NoDup (dl_id <$> downloaded_sub df_downloaded) →
  ∃ o, results (reconcile base_name sid_col df_roster df_downloaded st)
       = results st ++ [o]
       ∧ NoDup (outcome_ids o).
Proof.
  intros Hl Hr.
  exists (course_outcome base_name sid_col df_roster df_downloaded).
  split; [done|]. unfold outcome_ids. simpl.
  rewrite <- list_fmap_compose. unfold merged_frame.
  set (ms := merge_outer _ _).
  assert ((r_ID_final ∘ to_result base_name)
            <$> filter (λ m, PyStr.isnumeric (ID_final m))
                  (filter (λ m, id_present m) ms)
          = join_key
              <$> filter (λ m, PyStr.isnumeric (ID_final m))
                    (filter (λ m, id_present m) ms)) as ->.
  { apply Forall_fmap_ext_1, Forall_forall.
    intros m [_ [_ Hm]%list_elem_of_filter]%list_elem_of_filter.
    by apply ID_final_clean in Hm. }
  eapply sublist_NoDup; [by apply merge_outer_keys_NoDup|].
  apply fmap_sublist. etrans; apply sublist_filter.
Qed.

Lemma one_row_per_student_witness :
  ∃ o, results (reconcile "CS1" "SID" roster_frame_plain export_frame_plain
                  initial_state)
       = results initial_state ++ [o]
       ∧ NoDup (outcome_ids o).
Proof.
  apply (one_row_per_student "CS1" "SID" roster_frame_plain export_frame_plain
           initial_state).
  - apply (bool_decide_unpack _). vm_compute. exact I.
  - apply (bool_decide_unpack _). vm_compute. exact I.
Defined.

(** ** All results in one frame *)

Lemma get_all_results_df_frames (os : list outcome) :
  mjoin (omap (λ result,
                 match result with
                 | Success _ _ data _ _ => Some data
                 | Error _ _ => None
                 end) os)
  = mjoin (outcome_data <$> os).
Proof.
  induction os as [|o os IH]; [done|].
  destruct o; simpl in *; [f_equal|]; exact IH.
Qed.

Lemma get_all_results_df_none (os : list outcome) :
  omap (λ result,
          match result with
          | Success _ _ data _ _ => Some data
          | Error _ _ => None
          end) os = []
  ↔ Forall (λ o, is_success o = false) os.
Proof.
  induction os as [|o os IH]; [by split; [constructor|]|].
  destruct o; simpl.
  - split; [done|]. by intros [? _]%Forall_cons.
  - rewrite IH. split; [by constructor|]. by intros [_ ?]%Forall_cons.
Qed.

(** The combined frame of a run is absent exactly when no course
    succeeded; otherwise it is the rows of the outcomes one after the
    other, in course order, and [total_students] is their number. *)
Theorem all_results_frame mkstemp roster_files downloaded_files :
  let res := (compare_grades mkstemp roster_files downloaded_files).1.1 in
  let s := (compare_grades mkstemp roster_files downloaded_files).1.2 in
  match get_all_results_df res with
  | Some rows =>
      rows = mjoin (outcome_data <$> res)
      ∧ length rows = total_students s
      ∧ Exists (λ o, is_success o = true) res
  | None => Forall (λ o, is_success o = false) res ∧ total_students s = 0
  end.
Proof.
  destruct (compare_grades_spec mkstemp roster_files downloaded_files)
    as (os & Hos & ->).
  simpl. clear Hos. unfold get_all_results_df.
  pose proof (get_all_results_df_frames os) as Hj.
  pose proof (get_all_results_df_none os) as Hn.
  destruct (omap _ os) as [|d ds] eqn:Hd.
  - split; [by apply Hn|]. by rewrite <- Hj.
  - rewrite Hj. repeat split.
    clear Hj Hn. revert d ds Hd.
    induction os as [|o os IH]; [done|]. intros d ds Hd.
    destruct o; [by left|]. right. by eapply IH.
Qed.

(** ** What the locator accepts and what the reconciler looks up *)

Lemma has_column_elem label df :
  has_column label df = true ↔ label ∈ columns df.
Proof.
  unfold has_column, PyStr.mem. rewrite existsb_exists. split.
  - intros (x & Hx%list_elem_of_In & ->%String.eqb_eq). done.
  - intros Hin. exists label. by rewrite <- list_elem_of_In, String.eqb_refl.
Qed.

(** ** More on the grade normaliser *)

Lemma is_space_lower_ascii c : PyStr.is_space (PyStr.lower_ascii c) = PyStr.is_space c.
Proof. by destruct c as [[] [] [] [] [] [] [] []]. Qed.

Lemma upper_lower_ascii c : PyStr.upper_ascii (PyStr.lower_ascii c) = PyStr.upper_ascii c.
Proof. by destruct c as [[] [] [] [] [] [] [] []]. Qed.

Lemma upper_lower s : PyStr.upper (PyStr.lower s) = PyStr.upper s.
Proof. induction s as [|c s IH]; simpl; [done|]. by rewrite upper_lower_ascii, IH. Qed.

Lemma lstrip_lower s : PyStr.lstrip (PyStr.lower s) = PyStr.lower (PyStr.lstrip s).
Proof.
  induction s as [|c s IH]; simpl; [done|].
  rewrite is_space_lower_ascii. by destruct (PyStr.is_space c).
Qed.

Lemma rstrip_lower s : PyStr.rstrip (PyStr.lower s) = PyStr.lower (PyStr.rstrip s).
Proof.
  induction s as [|c s IH]; simpl; [done|].
  rewrite IH, is_space_lower_ascii.
  destruct (PyStr.rstrip s); simpl; [by destruct (PyStr.is_space c)|done].
Qed.

(** The normalised grade is in canonical form: it has no lowercase
    letter and no white space around it, and it is never one of the
    aliases "P" and "ABS". *)
Theorem normalize_grade_canonical (g : cell) :
  PyStr.upper (normalize_grade g) = normalize_grade g
  ∧ PyStr.strip (normalize_grade g) = normalize_grade g
  ∧ normalize_grade g ≠ "P"
  ∧ normalize_grade g ≠ "ABS".
Proof.
  unfold normalize_grade.
  set (t := PyStr.upper (PyStr.strip (py_str g))).
  destruct (PyStr.mem t ["P"; "PASS"]) eqn:Hp; [done|].
  destruct (PyStr.mem t ["ABSENT"; "ABS"]) eqn:Ha; [done|].
  unfold PyStr.mem in Hp, Ha. simpl in Hp, Ha.
  rewrite !orb_false_iff in Hp, Ha.
  destruct Hp as (Hp & _), Ha as (_ & Ha & _).
  apply eqb_false_iff in Hp, Ha.
  repeat split; [apply upper_idemp| |done..].
  unfold t. by rewrite strip_upper, strip_idemp.
Qed.

(** ** Strings again *)

Lemma app_cons_s c (s t : string) : String c s +:+ t = String c (s +:+ t).
Proof. reflexivity. Qed.

Lemma app_nil_l_s (t : string) : "" +:+ t = t.
Proof. reflexivity. Qed.

(** [String.append] is not unfolded by [simpl]; its two equations are
    rewritten instead. *)
Ltac ssimpl := rewrite ?app_cons_s, ?app_nil_l_s; simpl.
Tactic Notation "ssimpl" "in" "*" :=
  rewrite ?app_cons_s, ?app_nil_l_s in *; simpl in *.

Lemma app_nil_r_s (s : string) : s +:+ "" = s.
Proof. induction s as [|c s IH]; ssimpl; [done|]. by rewrite IH. Qed.

Lemma app_assoc_s (s t u : string) : (s +:+ t) +:+ u = s +:+ (t +:+ u).
Proof. induction s as [|c s IH]; ssimpl; [done|]. by rewrite IH. Qed.

Lemma length_app_s (s t : string) :
  String.length (s +:+ t) = String.length s + String.length t.
Proof. induction s as [|c s IH]; ssimpl; [done|]. by rewrite IH. Qed.

Lemma substring_prefix (s t : string) :
  String.substring 0 (String.length s) (s +:+ t) = s.
Proof.
  induction s as [|c s IH]; ssimpl; [by destruct t|]. by rewrite IH.
Qed.

Lemma all_chars_app p (s t : string) :
  all_chars p (s +:+ t) = all_chars p s && all_chars p t.
Proof.
  induction s as [|c s IH]; ssimpl; [done|]. by rewrite IH, andb_assoc.
Qed.

Lemma all_chars_impl (p q : ascii → bool) (s : string) :
  (∀ c, p c = true → q c = true) → all_chars p s = true → all_chars q s = true.
Proof.
  intros Hpq. induction s as [|c s IH]; ssimpl; [done|].
  intros [Hc Hs]%andb_true_iff. by rewrite (Hpq c Hc), IH.
Qed.

Lemma digit_is_alnum c : PyStr.is_digit c = true → Re.is_alnum c = true.
Proof. by destruct c as [[] [] [] [] [] [] [] []]. Qed.

Lemma alnum_not_space c : Re.is_alnum c = true → PyStr.is_space c = false.
Proof. by destruct c as [[] [] [] [] [] [] [] []]. Qed.

(** Text made of letters and digits is left alone by [strip]. *)
Lemma strip_alnum (g : string) :
  all_chars Re.is_alnum g = true → PyStr.strip g = g.
Proof.
  intros Hg. unfold PyStr.strip.
  assert (PyStr.rstrip g = g) as ->.
  { induction g as [|c g IH]; ssimpl in *; [done|].
    apply andb_true_iff in Hg as [Hc Hg]. rewrite (IH Hg).
    destruct g; [by rewrite (alnum_not_space _ Hc)|done]. }
  destruct g as [|c g]; ssimpl in *; [done|].
  apply andb_true_iff in Hg as [Hc _]. by rewrite (alnum_not_space _ Hc).
Qed.

(** ** The pattern of [extract_and_merge] *)

Lemma star_some {R} p s (k : string → option R) r :
  Re.star p s k = Some r →
  ∃ u t, s = u +:+ t ∧ all_chars p u = true ∧ k t = Some r.
Proof.
  induction s as [|c s IH]; ssimpl.
  - intros Hk. by exists "", "".
  - destruct (p c) eqn:Hc; [|intros Hk; by exists "", (String c s)].
    destruct (Re.star p s k) as [r'|] eqn:Hs.
    + intros [= ->]. destruct (IH eq_refl) as (u & t & -> & Hu & Hk).
      exists (String c u), t. ssimpl. by rewrite Hc, Hu.
    + intros Hk. by exists "", (String c s).
Qed.

Lemma star_complete {R} p u t (k : string → option R) r :
  all_chars p u = true → k t = Some r → is_Some (Re.star p (u +:+ t) k).
Proof.
  intros Hu Hk. induction u as [|c u IH]; ssimpl in *.
  - destruct t as [|d t]; ssimpl; [by rewrite Hk|].
    destruct (p d); [|by rewrite Hk].
    destruct (Re.star p t k); [done|by rewrite Hk].
  - apply andb_true_iff in Hu as [Hc Hu]. rewrite Hc.
    destruct (IH Hu) as [r' ->]. done.
Qed.

Lemma star_stop {R} p c s (k : string → option R) :
  p c = false → Re.star p (String c s) k = k (String c s).
Proof. intros Hc. simpl. by rewrite Hc. Qed.

Lemma plus_some {R} p s (k : string → option R) r :
  Re.plus p s k = Some r →
  ∃ c u t, s = String c (u +:+ t) ∧ p c = true ∧ all_chars p u = true
           ∧ k t = Some r.
Proof.
  destruct s as [|c s]; ssimpl; [done|].
  destruct (p c) eqn:Hc; [|done].
  intros (u & t & -> & Hu & Hk)%star_some. by exists c, u, t.
Qed.

Lemma suffix_ok_head c t : Re.suffix_ok (String c t) = true → Re.is_alnum c = false.
Proof.
  unfold Re.suffix_ok.
  destruct (Ascii.eqb c "_") eqn:Hc.
  - apply Ascii.eqb_eq in Hc as ->. done.
  - unfold Re.at_eol. ssimpl.
    destruct (Ascii.eqb c "010") eqn:Hn; [|done].
    apply Ascii.eqb_eq in Hn as ->. done.
Qed.

Lemma suffix_ok_plain t :
  no_newline t = true →
  Re.suffix_ok t = true ↔ t = "" ∨ ∃ t', t = String "_" t'.
Proof.
  intros Hnl. destruct t as [|c t]; [by split; [left|]|].
  unfold Re.suffix_ok. split.
  - destruct (Ascii.eqb c "_") eqn:Hc.
    + apply Ascii.eqb_eq in Hc as ->. intros _. right. by exists t.
    + unfold Re.at_eol. unfold no_newline in Hnl. simpl in *.
      unfold Re.is_dot in Hnl at 1.
      destruct (Ascii.eqb c "010"); [done|]. by intros [=].
  - intros [?|[t' [= -> ->]]]; [done|]. unfold no_newline in Hnl. simpl in *.
    destruct (star_complete Re.is_dot t' ""
                (λ t, if Re.at_eol t then Some () else None) () Hnl eq_refl)
      as [r Hr].
    rewrite app_nil_r_s in Hr. by rewrite Hr.
Qed.

Lemma ends_with_digit_app (x y : string) :
  y ≠ "" → ends_with_digit (x +:+ y) = ends_with_digit y.
Proof.
  intros Hy. induction x as [|c x IH]; [done|]. ssimpl. rewrite IH.
  destruct (x +:+ y) eqn:Hxy; [|done].
  destruct x; [by rewrite app_nil_l_s in Hxy|by rewrite app_cons_s in Hxy].
Qed.

Lemma digits_end_with_digit d (v : string) :
  PyStr.is_digit d = true → all_chars PyStr.is_digit v = true →
  ends_with_digit (String d v) = true.
Proof.
  revert d. induction v as [|e v IH]; intros d Hd Hv; [done|].
  simpl in Hv. apply andb_true_iff in Hv as [He Hv].
  change (ends_with_digit (String e v) = true). by apply IH.
Qed.

Lemma snoc_digit (g : string) :
  g ≠ "" → all_chars Re.is_alnum g = true → ends_with_digit g = true →
  ∃ u d, g = u +:+ String d "" ∧ all_chars Re.is_alnum u = true
         ∧ PyStr.is_digit d = true.
Proof.
  induction g as [|a g IH]; [done|]. intros _ Ha He.
  simpl in Ha. apply andb_true_iff in Ha as [Ha Hg].
  destruct g as [|b g].
  - exists "", a. by rewrite app_nil_l_s.
  - destruct IH as (u & d & Hu & Hal & Hd); [done..|].
    exists (String a u), d. rewrite app_cons_s, <- Hu. simpl. by rewrite Ha, Hal.
Qed.

Lemma alnum_prefix_unique (g g' r r' : string) :
  g +:+ r = g' +:+ r' →
  all_chars Re.is_alnum g = true → all_chars Re.is_alnum g' = true →
  starts_alnum r = false → starts_alnum r' = false → g = g'.
Proof.
  revert g'. induction g as [|c g IH]; intros g' Heq Hg Hg' Hr Hr'.
  - destruct g' as [|c' g']; [done|]. ssimpl in *.
    apply andb_true_iff in Hg' as [Hc' _]. subst r. simpl in Hr. congruence.
  - destruct g' as [|c' g']; ssimpl in *.
    + apply andb_true_iff in Hg as [Hc _]. subst r'. simpl in Hr'. congruence.
    + apply andb_true_iff in Hg as [_ Hg], Hg' as [_ Hg'].
      injection Heq as -> Heq. f_equal. by apply IH.
Qed.

Lemma suffix_ok_starts t : Re.suffix_ok t = true → starts_alnum t = false.
Proof. destruct t as [|c t]; [done|]. apply suffix_ok_head. Qed.

(** A match splits the text into group 1, which is a code, and a rest
    that the optional group and the end accept. *)
Lemma match_group1_sound s g :
  Re.match_group1 s = Some g →
  ∃ rest, s = g +:+ rest ∧ is_code g = true ∧ Re.suffix_ok rest = true.
Proof.
  unfold Re.match_group1.
  intros (c & u & s1 & Hs & Hc & Hu & H1)%plus_some.
  apply plus_some in H1 as (d & v & s2 & -> & Hd & Hv & H2).
  destruct (Re.suffix_ok s2) eqn:Hok; [|done]. injection H2 as <-.
  assert (s = String c (u +:+ String d v) +:+ s2) as Hsplit
    by (by rewrite Hs, !app_cons_s, app_assoc_s, app_cons_s).
  exists s2. rewrite Hsplit at 2.
  rewrite Hsplit, length_app_s, Nat.add_sub, substring_prefix.
  split; [done|]. split; [|done].
  unfold is_code. rewrite !andb_true_iff. repeat split.
  - simpl. rewrite Hc, all_chars_app, Hu. simpl.
    by rewrite (digit_is_alnum _ Hd), (all_chars_impl _ _ _ digit_is_alnum Hv).
  - apply Nat.leb_le. simpl. rewrite length_app_s. simpl. lia.
  - rewrite <- app_cons_s, ends_with_digit_app by done.
    by apply digits_end_with_digit.
Qed.

Lemma match_group1_complete s g rest :
  s = g +:+ rest → is_code g = true → Re.suffix_ok rest = true →
  Re.match_group1 s = Some g.
Proof.
  intros Hs Hcode Hok.
  pose proof Hcode as Hcode'. unfold is_code in Hcode'.
  rewrite !andb_true_iff in Hcode'. destruct Hcode' as [[Hal Hlen] Hend].
  apply Nat.leb_le in Hlen.
  destruct g as [|c g]; [simpl in Hlen; lia|].
  simpl in Hal. apply andb_true_iff in Hal as [Hc Hal].
  destruct (snoc_digit g) as (u & d & -> & Hu & Hd);
    [by destruct g; [simpl in Hlen; lia|]|done|by destruct g; [simpl in Hlen; lia|]|].
  assert (is_Some (Re.match_group1 s)) as [g' Hg'].
  { unfold Re.match_group1 at 1. rewrite Hs at 1.
    rewrite app_cons_s, app_assoc_s, app_cons_s, app_nil_l_s.
    simpl. rewrite Hc. eapply star_complete; [exact Hu|].
    simpl. rewrite Hd.
    assert (Re.star PyStr.is_digit rest
              (λ s2, if Re.suffix_ok s2
                     then Some (String.substring 0
                                  (String.length s - String.length s2) s)
                     else None)
            = (if Re.suffix_ok rest
               then Some (String.substring 0
                            (String.length s - String.length rest) s)
               else None)) as ->; [|by rewrite Hok].
    destruct rest as [|e rest]; [done|]. apply star_stop.
    apply suffix_ok_head in Hok.
    destruct (PyStr.is_digit e) eqn:He; [|done].
    by rewrite (digit_is_alnum _ He) in Hok. }
  rewrite Hg'. f_equal.
  destruct (match_group1_sound _ _ Hg') as (rest' & Hs' & Hcode'' & Hok').
  symmetry. eapply alnum_prefix_unique.
  - rewrite <- Hs. exact Hs'.
  - simpl. rewrite Hc, all_chars_app, Hu. simpl. by rewrite (digit_is_alnum _ Hd).
  - unfold is_code in Hcode''. rewrite !andb_true_iff in Hcode''. tauto.
  - by apply suffix_ok_starts.
  - by apply suffix_ok_starts.
Qed.

Lemma match_group1_plain s g :
  no_newline s = true →
  Re.match_group1 s = Some g
  ↔ is_code g = true ∧ (s = g ∨ ∃ t, s = g +:+ String "_" t).
Proof.
  intros Hnl. split.
  - intros (rest & Hs & Hcode & Hok)%match_group1_sound. split; [done|].
    assert (no_newline rest = true) as Hnr.
    { unfold no_newline in *. rewrite Hs, all_chars_app in Hnl.
      by apply andb_true_iff in Hnl as [_ ?]. }
    apply (suffix_ok_plain _ Hnr) in Hok as [->|[t ->]].
    + left. by rewrite app_nil_r_s in Hs.
    + right. by exists t.
  - intros [Hcode Hs].
    assert (∃ rest, s = g +:+ rest
                    ∧ (rest = "" ∨ ∃ t, rest = String "_" t)) as (rest & Hr & Hshape).
    { destruct Hs as [->|[t ->]].
      - exists "". by rewrite app_nil_r_s; auto.
      - exists (String "_" t). eauto. }
    apply (match_group1_complete _ _ rest Hr Hcode).
    apply suffix_ok_plain; [|done].
    unfold no_newline in *. rewrite Hr, all_chars_app in Hnl.
    by apply andb_true_iff in Hnl as [_ ?].
Qed.

(** ** [os.path] on names with an extension *)

Lemma rfind_from_none c i last (p : string) :
  all_chars (λ d, negb (Ascii.eqb d c)) p = true →
  OsPath.rfind_from c i last p = last.
Proof.
  revert i last. induction p as [|d p IH]; intros i last; simpl; [done|].
  intros [Hd Hp]%andb_true_iff. rewrite IH by done.
  by destruct (Ascii.eqb d c).
Qed.

Lemma rfind_from_last c i last (x e : string) :
  all_chars (λ d, negb (Ascii.eqb d c)) e = true →
  OsPath.rfind_from c i last (x +:+ String c e)
  = (i + Z.of_nat (String.length x))%Z.
Proof.
  intros He. revert i last. induction x as [|a x IH]; intros i last.
  - rewrite app_nil_l_s. simpl. rewrite Ascii.eqb_refl, rfind_from_none by done.
    lia.
  - rewrite app_cons_s. simpl. rewrite IH. lia.
Qed.

Lemma substring_all (p : string) : String.substring 0 (String.length p) p = p.
Proof. induction p as [|c p IH]; simpl; [done|]. by rewrite IH. Qed.

Lemma basename_plain (p : string) : no_slash p = true → OsPath.basename p = p.
Proof.
  intros Hp. unfold OsPath.basename, OsPath.rfind, OsPath.slice.
  rewrite rfind_from_none by done. simpl.
  rewrite Z.sub_0_r, Nat2Z.id. apply substring_all.
Qed.

Lemma splitext_root_ext (x e : string) :
  no_slash x = true → OsPath.has_non_dot x = true →
  no_slash e = true → all_chars (λ d, negb (Ascii.eqb d ".")) e = true →
  OsPath.splitext_root (x +:+ String "." e) = x.
Proof.
  intros Hx Hnd He Hdot. unfold OsPath.splitext_root, OsPath.rfind.
  rewrite rfind_from_last by done.
  rewrite rfind_from_none
    by (unfold no_slash in *; rewrite all_chars_app; simpl; by rewrite Hx, He).
  assert ((-1 <? 0 + Z.of_nat (String.length x))%Z = true) as ->
    by (apply Z.ltb_lt; lia).
  unfold OsPath.slice.
  replace (Z.to_nat (-1 + 1)) with 0 by done.
  replace (Z.to_nat (0 + Z.of_nat (String.length x) - (-1 + 1)))
    with (String.length x) by lia.
  replace (Z.to_nat (0 + Z.of_nat (String.length x) - 0))
    with (String.length x) by lia.
  change (Z.to_nat 0) with 0. by rewrite substring_prefix, Hnd.
Qed.

Lemma stem_ext (x e : string) :
  no_slash x = true → OsPath.has_non_dot x = true →
  no_slash e = true → all_chars (λ d, negb (Ascii.eqb d ".")) e = true →
  stem (x +:+ String "." e) = x.
Proof.
  intros Hx Hnd He Hdot. unfold stem.
  rewrite basename_plain; [by apply splitext_root_ext|].
  unfold no_slash in *. rewrite all_chars_app. simpl. by rewrite Hx, He.
Qed.

Lemma alnum_plain_char c :
  Re.is_alnum c = true →
  Ascii.eqb c "/" = false ∧ Ascii.eqb c "." = false ∧ Re.is_dot c = true.
Proof. by destruct c as [[] [] [] [] [] [] [] []]. Qed.

Lemma code_plain (g : string) :
  is_code g = true →
  all_chars Re.is_alnum g = true ∧ no_slash g = true ∧ no_newline g = true
  ∧ OsPath.has_non_dot g = true.
Proof.
  unfold is_code. rewrite !andb_true_iff. intros [[Hal Hlen] _].
  split; [done|]. split; [|split].
  - eapply all_chars_impl; [|exact Hal]. intros c Hc.
    destruct (alnum_plain_char c Hc) as (-> & _). done.
  - eapply all_chars_impl; [|exact Hal]. intros c Hc.
    by destruct (alnum_plain_char c Hc) as (_ & _ & ->).
  - destruct g as [|c g]; [done|]. simpl in *.
    apply andb_true_iff in Hal as [Hc _].
    by destruct (alnum_plain_char c Hc) as (_ & -> & _).
Qed.

(** ** Base codes *)

Lemma lower_app (s t : string) :
  PyStr.lower (s +:+ t) = PyStr.lower s +:+ PyStr.lower t.
Proof. induction s as [|c s IH]; [done|]. ssimpl. by rewrite IH. Qed.

Lemma endswith_app (a suf : string) : endswith (a +:+ suf) suf = true.
Proof.
  induction a as [|c a IH].
  - rewrite app_nil_l_s. destruct suf; simpl; by rewrite ?Ascii.eqb_refl, ?String.eqb_refl.
  - rewrite app_cons_s. simpl. rewrite IH. apply orb_true_r.
Qed.

Lemma accepted_ext (x ext : string) :
  ext ∈ [".csv"; ".xlsx"; ".xls"] → accepted (x +:+ ext) = true.
Proof.
  intros Hext. unfold accepted. rewrite lower_app.
  repeat (apply elem_of_cons in Hext as [->|Hext]);
    [..|by apply elem_of_nil in Hext];
    change (PyStr.lower ".csv") with ".csv";
    change (PyStr.lower ".xlsx") with ".xlsx";
    change (PyStr.lower ".xls") with ".xls";
    rewrite endswith_app; by rewrite ?orb_true_r.
Qed.

Lemma base_code_ext (x ext code : string) :
  ext ∈ [".csv"; ".xlsx"; ".xls"] →
  no_slash x = true → OsPath.has_non_dot x = true →
  Re.match_group1 x = Some code → is_code code = true →
  base_code (x +:+ ext) = code.
Proof.
  intros Hext Hx Hnd Hm Hcode. unfold base_code.
  assert (OsPath.splitext_root (x +:+ ext) = x) as ->.
  { repeat (apply elem_of_cons in Hext as [->|Hext]);
      [..|by apply elem_of_nil in Hext]; by apply splitext_root_ext. }
  rewrite Hm. apply strip_alnum. by apply code_plain.
Qed.

(** A file named by a course code, or by a course code, an underscore
    and a suffix, with one of the three extensions, is accepted and has
    that course code as its base code. *)
Theorem base_code_of_course_files (code t ext : string) :
  is_code code = true → no_newline t = true → no_slash t = true →
  ext ∈ [".csv"; ".xlsx"; ".xls"] →
  accepted (code +:+ ext) = true
  ∧ base_code (code +:+ ext) = code
  ∧ accepted ((code +:+ String "_" t) +:+ ext) = true
  ∧ base_code ((code +:+ String "_" t) +:+ ext) = code.
Proof.
  intros Hcode Ht Hs Hext.
  destruct (code_plain _ Hcode) as (Hal & Hcs & Hcn & Hcd).
  split; [by apply accepted_ext|]. split; [|split; [by apply accepted_ext|]].
  - apply base_code_ext; try done.
    apply match_group1_plain; [done|]. auto.
  - assert (OsPath.has_non_dot (code +:+ String "_" t) = true) as Hnd.
    { destruct code as [|c code]; [done|]. rewrite app_cons_s. simpl in *.
      destruct (negb (Ascii.eqb c ".")); [done|]. simpl in Hcd.
      clear -Hcd. induction code as [|d code IH]; [done|].
      rewrite app_cons_s. simpl in *.
      destruct (negb (Ascii.eqb d ".")); [done|]. by apply IH. }
    apply base_code_ext; try done.
    + unfold no_slash in *. rewrite all_chars_app. simpl. by rewrite Hcs, Hs.
    + apply match_group1_plain.
      * unfold no_newline in *. rewrite all_chars_app. simpl. by rewrite Hcn, Ht.
      * split; [done|]. right. by exists t.
Qed.

Lemma base_code_of_course_files_witness :
  accepted ("MATH101" +:+ ".xlsx") = true
  ∧ base_code ("MATH101" +:+ ".xlsx") = "MATH101"
  ∧ accepted (("MATH101" +:+ String "_" "2") +:+ ".xlsx") = true
  ∧ base_code (("MATH101" +:+ String "_" "2") +:+ ".xlsx") = "MATH101".
Proof.
  apply (base_code_of_course_files "MATH101" "2" ".xlsx");
    [reflexivity..|].
  apply list_elem_of_further, list_elem_of_here.
Defined.

Lemma all_chars_substring p n m (s : string) :
  all_chars p s = true → all_chars p (String.substring n m s) = true.
Proof.
  revert n m. induction s as [|c s IH]; intros n m Hs.
  - by destruct n, m.
  - simpl in Hs. apply andb_true_iff in Hs as [Hc Hs].
    destruct n as [|n]; [destruct m as [|m]|]; simpl; [done| |by apply IH].
    by rewrite Hc, IH.
Qed.

Lemma has_non_dot_app (s t : string) :
  OsPath.has_non_dot (s +:+ t) = OsPath.has_non_dot s || OsPath.has_non_dot t.
Proof.
  induction s as [|c s IH]; [done|]. ssimpl. by rewrite IH, orb_assoc.
Qed.

Lemma endswith_eq (s suf : string) :
  endswith s suf
  = String.eqb s suf
    || match s with
       | EmptyString => false
       | String _ s' => endswith s' suf
       end.
Proof. by destruct s. Qed.

Lemma endswith_split (s suf : string) :
  endswith s suf = true → ∃ pre, s = pre +:+ suf.
Proof.
  induction s as [|c s IH]; rewrite endswith_eq.
  - rewrite orb_false_r. intros <-%String.eqb_eq. by exists "".
  - intros [<-%String.eqb_eq|(pre & ->)%IH]%orb_true_iff.
    + by exists "".
    + by exists (String c pre).
Qed.

Lemma lower_app_inv (p a b : string) :
  PyStr.lower p = a +:+ b →
  ∃ pa pb, p = pa +:+ pb ∧ PyStr.lower pb = b.
Proof.
  revert p. induction a as [|c a IH]; intros p.
  - rewrite app_nil_l_s. intros Hp. by exists "", p.
  - destruct p as [|d p]; [done|]. rewrite app_cons_s. simpl.
    intros [= _ (pa & pb & -> & Hb)%IH]. by exists (String d pa), pb.
Qed.

Lemma lower_ext_non_dot (pb : string) a b r :
  PyStr.lower pb = String a (String b r) → Ascii.eqb b "." = false →
  OsPath.has_non_dot pb = true.
Proof.
  destruct pb as [|c0 [|c1 pb]]; [done..|]. simpl. intros [= _ Hb _] Hne.
  destruct (Ascii.eqb c1 ".") eqn:Hc1; [|by rewrite orb_true_r].
  apply Ascii.eqb_eq in Hc1 as ->. by subst b.
Qed.

Lemma accepted_non_dot (f : string) :
  accepted f = true → OsPath.has_non_dot f = true.
Proof.
  unfold accepted. rewrite !orb_true_iff.
  intros [[H|H]|H]; apply endswith_split in H as [pre H];
    apply lower_app_inv in H as (pa & pb & -> & Hb);
    rewrite has_non_dot_app; erewrite (lower_ext_non_dot pb); eauto using orb_true_r.
Qed.

Lemma base_code_plain (f : string) :
  accepted f = true → no_slash f = true →
  no_slash (base_code f) = true ∧ OsPath.has_non_dot (base_code f) = true.
Proof.
  intros Hacc Hs. unfold base_code.
  destruct (Re.match_group1 _) as [g|] eqn:Hm.
  - apply match_group1_sound in Hm as (rest & _ & Hcode & _).
    destruct (code_plain _ Hcode) as (Hal & ? & _ & ?).
    by rewrite (strip_alnum _ Hal).
  - unfold OsPath.splitext_root, OsPath.rfind.
    rewrite (rfind_from_none "/") by done.
    destruct (_ <? _)%Z; [|by split; [|apply accepted_non_dot]].
    change (-1 + 1)%Z with 0%Z.
    destruct (OsPath.has_non_dot (OsPath.slice 0 _ f)) eqn:Hnd;
      [|by split; [|apply accepted_non_dot]].
    split; [|done]. by apply all_chars_substring.
Qed.

(** The merged file of a course is found again under its course code:
    the stem of the name it is written under is the base code of the
    files merged into it. *)
Theorem merged_name_round_trip (filename : string) :
  accepted filename = true → no_slash filename = true →
  stem (base_code filename +:+ ".csv") = base_code filename.
Proof.
  intros Hacc Hs. destruct (base_code_plain _ Hacc Hs) as [Hbs Hbd].
  by apply (stem_ext _ "csv").
Qed.

Lemma merged_name_round_trip_witness :
  stem (base_code "notes.v2.xls" +:+ ".csv") = base_code "notes.v2.xls".
Proof. apply (merged_name_round_trip "notes.v2.xls"); reflexivity. Defined.

(** ** Grouping the files of the archive *)

Lemma app_inv_tail_s (s t e : string) : s +:+ e = t +:+ e → s = t.
Proof.
  revert t. induction s as [|c s IH]; intros [|d t]; ssimpl; [done| | |].
  - intros H. apply (f_equal String.length) in H.
    simpl in H. rewrite length_app_s in H. lia.
  - intros H. apply (f_equal String.length) in H.
    simpl in H. rewrite length_app_s in H. lia.
  - intros [= -> H]. f_equal. by apply IH.
Qed.

Section grouping.
Context {A : Type} (pd_concat : list A → A).
Implicit Types (cd : list (string * list A)) (rd : list (string * A)).

Lemma frames_at_setdefault key (df : A) cd k :
  frames_at k (setdefault_append key df cd)
  = if String.eqb key k then frames_at k cd ++ [df] else frames_at k cd.
Proof.
  induction cd as [|[k' l] cd IH]; simpl.
  - by destruct (String.eqb key k).
  - destruct (String.eqb k' key) eqn:Hk'; simpl.
    + apply String.eqb_eq in Hk' as ->. by destruct (String.eqb key k).
    + rewrite IH. destruct (String.eqb k' k) eqn:Hkk; [|done].
      apply String.eqb_eq in Hkk as ->. by rewrite String.eqb_sym, Hk'.
Qed.

Lemma keys_setdefault key (df : A) cd :
  (setdefault_append key df cd).*1
  = if bool_decide (key ∈ cd.*1) then cd.*1 else cd.*1 ++ [key].
Proof.
  induction cd as [|[k' l] cd IH]; [done|].
  change (setdefault_append key df ((k', l) :: cd))
    with (if String.eqb k' key then (k', l ++ [df]) :: cd
          else (k', l) :: setdefault_append key df cd).
  rewrite fmap_cons.
  destruct (String.eqb k' key) eqn:Hk'; rewrite fmap_cons; cbn [fst].
  - apply String.eqb_eq in Hk' as ->.
    by rewrite bool_decide_eq_true_2 by apply list_elem_of_here.
  - apply String.eqb_neq in Hk'. rewrite IH.
    destruct (decide (key ∈ cd.*1)) as [Hin|Hout].
    + rewrite !bool_decide_eq_true_2; [done|by right|done].
    + rewrite !bool_decide_eq_false_2; [done| |done].
      by intros [?|?]%elem_of_cons.
Qed.

Lemma groups_setdefault key (df : A) cd rd :
  groups cd rd → groups (setdefault_append key df cd) (rd ++ [(key, df)]).
Proof.
  intros (Hnd & Hkeys & Hfr). split; [|split].
  - rewrite keys_setdefault. case_bool_decide; [done|].
    apply NoDup_app. split; [done|]. split; [|apply NoDup_singleton].
    intros k Hk ->%list_elem_of_singleton. done.
  - intros k. rewrite keys_setdefault, fmap_app, elem_of_app. simpl.
    rewrite list_elem_of_singleton, <- Hkeys.
    case_bool_decide; [|by rewrite elem_of_app, list_elem_of_singleton].
    split; [auto|]. by intros [?| ->].
  - intros k. rewrite frames_at_setdefault, filter_app, fmap_app, Hfr.
    rewrite filter_cons, filter_nil. simpl.
    destruct (String.eqb key k) eqn:Hk.
    + apply String.eqb_eq in Hk as ->. by rewrite decide_True.
    + apply String.eqb_neq in Hk. by rewrite decide_False, app_nil_r.
Qed.

Lemma scan_file_step (f : string) (read : exn + A) st :
  scan_file st (f, read)
  = if accepted f
    then (match read with
          | inr df => setdefault_append (base_code f) df st.1
          | inl _ => st.1
          end,
          st.2 ++ [f +:+ " → " +:+ base_code f])
    else st.
Proof. unfold scan_file. cbn [fst snd]. by destruct (accepted f), read. Qed.

Lemma readable_cons (f : string) (read : exn + A) files :
  readable ((f, read) :: files)
  = match read with
    | inr df => if accepted f then (base_code f, df) :: readable files
                else readable files
    | inl _ => readable files
    end.
Proof. unfold readable. cbn. by destruct (accepted f), read. Qed.

Lemma scan_groups (files : list (string * (exn + A))) st rd :
  groups st.1 rd → groups (foldl scan_file st files).1 (rd ++ readable files).
Proof.
  revert st rd. induction files as [|[f read] files IH]; intros st rd Hg.
  - cbn. by rewrite app_nil_r.
  - change (foldl scan_file st ((f, read) :: files))
      with (foldl scan_file (scan_file st (f, read)) files).
    rewrite scan_file_step, readable_cons.
    destruct read as [e|df], (accepted f); try by apply IH.
    replace (rd ++ (base_code f, df) :: readable files)
      with ((rd ++ [(base_code f, df)]) ++ readable files)
      by (by rewrite <- (assoc_L (++))).
    apply IH. cbn [fst]. by apply groups_setdefault.
Qed.

Lemma groups_elem_of cd rd k (l : list A) :
  groups cd rd →
  (k, l) ∈ cd ↔ k ∈ rd.*1 ∧ l = snd <$> filter (λ p, p.1 = k) rd.
Proof.
  intros (Hnd & Hkeys & Hfr). rewrite <- Hkeys, <- Hfr. clear Hkeys Hfr rd.
  induction cd as [|[k' l'] cd IH]; simpl.
  - split; [by intros ?%elem_of_nil|by intros [?%elem_of_nil _]].
  - simpl in Hnd. apply NoDup_cons in Hnd as [Hk' Hnd].
    rewrite !elem_of_cons, (IH Hnd).
    destruct (String.eqb k' k) eqn:Hk.
    + apply String.eqb_eq in Hk as ->. split.
      * intros [[= ->]|[Hin _]]; [auto|done].
      * intros [_ ->]. by left.
    + apply String.eqb_neq in Hk. split.
      * intros [[= ? ?]|[? ?]]; [done|auto].
      * intros [[?|?] ?]; [done|auto].
Qed.

Lemma groups_nonempty cd rd :
  groups cd rd → Forall (λ entry, 0 < length entry.2) cd.
Proof.
  intros Hg. apply Forall_forall. intros [k l] Hin. simpl.
  apply (groups_elem_of _ _ _ _ Hg) in Hin as [Hk ->].
  apply list_elem_of_fmap in Hk as ([k' df] & -> & Hin). simpl.
  assert ((k', df) ∈ filter (λ p : string * A, p.1 = k') rd) as Hf
    by (by apply list_elem_of_filter).
  rewrite length_fmap. destruct (filter _ rd); [by apply elem_of_nil in Hf|].
  simpl. lia.
Qed.

Lemma filter_all {B} (P : B → Prop) `{!∀ x, Decision (P x)} (l : list B) :
  Forall P l → filter P l = l.
Proof.
  induction 1 as [|x l Hx _ IH]; [done|].
  by rewrite filter_cons, decide_True, IH.
Qed.

(** The files written are one per base code of the files that could be
    read, each named by its code and holding the concatenation of the
    frames of that code in the order of the walk; no name is written
    twice. *)
Theorem merged_files_by_code (files : list (string * (exn + A))) :
  let written := (extract_and_merge pd_concat files).1.1 in
  NoDup written.*1
  ∧ ∀ out df,
      (out, df) ∈ written ↔
      ∃ code, code ∈ (readable files).*1
              ∧ out = code +:+ ".csv"
              ∧ df = pd_concat (frames_of code files).
Proof.
  unfold extract_and_merge. simpl.
  pose proof (scan_groups files ([], []) []) as Hg. simpl in Hg.
  set (cd := (foldl scan_file ([], []) files).1) in *.
  assert (groups cd (readable files)) as Hcd.
  { apply Hg. split; [constructor|]. split; [done|]. done. }
  rewrite (filter_all _ _ (groups_nonempty _ _ Hcd)). split.
  - destruct Hcd as (Hnd & _).
    assert (∀ l : list (string * list A),
              ((λ entry, (entry.1 +:+ ".csv", pd_concat entry.2)) <$> l).*1
              = (λ k, k +:+ ".csv") <$> l.*1) as ->.
    { intros l. induction l as [|x l IH]; [done|].
      by rewrite !fmap_cons, IH. }
    apply NoDup_fmap_2_strong; [|done].
    intros x y _ _. apply app_inv_tail_s.
  - intros out df. rewrite list_elem_of_fmap. split.
    + intros ([k l] & [= -> ->] & Hin). simpl.
      apply (groups_elem_of _ _ _ _ Hcd) in Hin as [Hk ->]. by exists k.
    + intros (code & Hk & -> & ->).
      exists (code, frames_of code files). split; [done|].
      by apply (groups_elem_of _ _ _ _ Hcd).
Qed.

Lemma scan_processed (files : list (string * (exn + A))) st :
  (foldl scan_file st files).2
  = st.2 ++ ((λ f, f +:+ " → " +:+ base_code f)
               <$> filter (λ f, accepted f) files.*1).
Proof.
  revert st. induction files as [|[f read] files IH]; intros st.
  - cbn. by rewrite app_nil_r.
  - change (foldl scan_file st ((f, read) :: files))
      with (foldl scan_file (scan_file st (f, read)) files).
    rewrite IH, scan_file_step, fmap_cons. cbn [fst].
    destruct (accepted f) eqn:Hacc; cbn [snd].
    + rewrite filter_cons_True by exact (Is_true_true_2 _ Hacc).
      by rewrite fmap_cons, <- (assoc_L (++)).
    + by rewrite filter_cons_False by exact (Is_true_false_2 _ Hacc).
Qed.

(** [processed_files] has one line per accepted file, in the order of
    the walk, whether the file could be read or not; [merged_files] has
    one line per file written. *)
Theorem processed_files_listing (files : list (string * (exn + A))) :
  (extract_and_merge pd_concat files).1.2
  = (λ f, f +:+ " → " +:+ base_code f) <$> filter (λ f, accepted f) files.*1
  ∧ length (extract_and_merge pd_concat files).2
    = length (extract_and_merge pd_concat files).1.1.
Proof.
  unfold extract_and_merge. simpl. split.
  - by rewrite scan_processed.
  - by rewrite !length_fmap.
Qed.

End grouping.

(** ** Distinct students, and batches put together *)

(** [unique_students] is the number of distinct identifiers on the rows
    of the outcomes. *)
Theorem unique_students_distinct mkstemp roster_files downloaded_files :
  let res := (compare_grades mkstemp roster_files downloaded_files).1.1 in
  let s := (compare_grades mkstemp roster_files downloaded_files).1.2 in
  unique_students s = length (remove_dups (all_ids res)).
Proof.
  destruct (compare_grades_spec mkstemp roster_files downloaded_files)
    as (os & Hos & ->).
  simpl. fold (all_ids os).
  by rewrite <- list_to_set_remove_dups,
    (size_list_to_set _ (NoDup_remove_dups (all_ids os))).
Qed.

(** A batch made of two batches one after the other, against the same
    downloaded files: the counters are the sums of the counters of the
    two, the collected unmatched frames are those of the first followed
    by those of the second, and the distinct students are at most the
    sum. *)
Theorem batch_of_two_batches mkstemp mkstemp1 mkstemp2 rs1 rs2 downloaded_files :
  let run := compare_grades mkstemp (rs1 ++ rs2) downloaded_files in
  let run1 := compare_grades mkstemp1 rs1 downloaded_files in
  let run2 := compare_grades mkstemp2 rs2 downloaded_files in
  total_courses run.1.2 = total_courses run1.1.2 + total_courses run2.1.2
  ∧ courses_with_mismatches run.1.2
    = courses_with_mismatches run1.1.2 + courses_with_mismatches run2.1.2
  ∧ total_mismatches run.1.2
    = total_mismatches run1.1.2 + total_mismatches run2.1.2
  ∧ total_students run.1.2 = total_students run1.1.2 + total_students run2.1.2
  ∧ withdrawn_students run.1.2
    = withdrawn_students run1.1.2 + withdrawn_students run2.1.2
  ∧ unique_students run.1.2
    ≤ unique_students run1.1.2 + unique_students run2.1.2
  ∧ run.2 = run1.2 ++ run2.2.
Proof.
  destruct (compare_grades_spec mkstemp (rs1 ++ rs2) downloaded_files)
    as (os & Hos & ->).
  destruct (compare_grades_spec mkstemp1 rs1 downloaded_files)
    as (os1 & Hos1 & ->).
  destruct (compare_grades_spec mkstemp2 rs2 downloaded_files)
    as (os2 & Hos2 & ->).
  simpl.
  apply Forall2_app_inv_l in Hos as (o1 & o2 & H1 & H2 & ->).
  destruct (same_outcomes_parts _ _ (outcomes_same _ _ _ _ H1 Hos1))
    as (Hd1 & Hu1 & Hw1).
  destruct (same_outcomes_parts _ _ (outcomes_same _ _ _ _ H2 Hos2))
    as (Hd2 & Hu2 & Hw2).
  pose proof (same_outcomes_ids _ _ Hd1) as Hi1.
  pose proof (same_outcomes_ids _ _ Hd2) as Hi2.
  rewrite !fmap_app, !join_app, !filter_app, !length_app.
  rewrite Hd1, Hd2, Hu1, Hu2, Hw1, Hw2, Hi1, Hi2.
  repeat split.
  rewrite list_to_set_app_L.
  rewrite size_union_alt.
  apply Nat.add_le_mono_l, subseteq_size, subseteq_difference_l. done.
Qed.

(** * The rules of the specification, on the uploaded tables *)

(** ** Where a joined row comes from *)

Lemma normalize_grade_spec_eq (v : cell) :
  normalize_grade v = normalized_grade_spec v.
Proof.
  unfold normalize_grade, normalized_grade_spec, PyStr.mem. simpl.
  set (t := PyStr.upper (PyStr.strip (py_str v))).
  rewrite !orb_false_r.
  destruct (String.eqb_spec t "P") as [HP|HP],
           (String.eqb_spec t "PASS") as [HPASS|HPASS]; simpl.
  - by rewrite bool_decide_eq_true_2 by auto.
  - by rewrite bool_decide_eq_true_2 by auto.
  - by rewrite bool_decide_eq_true_2 by auto.
  - rewrite (bool_decide_eq_false_2 (t = "P" ∨ t = "PASS")) by (by intros [?|?]).
    destruct (String.eqb_spec t "ABSENT") as [HA|HA],
             (String.eqb_spec t "ABS") as [HABS|HABS]; simpl.
    + by rewrite bool_decide_eq_true_2 by auto.
    + by rewrite bool_decide_eq_true_2 by auto.
    + by rewrite bool_decide_eq_true_2 by auto.
    + by rewrite bool_decide_eq_false_2 by (by intros [?|?]).
Qed.

Lemma normalize_grade_clean (v : cell) :
  normalize_grade (CStr (clean_upper v)) = normalize_grade v.
Proof.
  unfold normalize_grade. simpl. unfold clean_upper.
  by rewrite upper_strip_idemp.
Qed.

Lemma roster_sub_row sid_col df l :
  l ∈ roster_sub sid_col df →
  ∃ row, row ∈ frame_rows df
         ∧ ro_sid l = PyStr.strip (py_str (cell_at df sid_col row))
         ∧ ro_letter l
           = PyStr.upper (PyStr.strip (py_str (cell_at df "Letter Grade" row))).
Proof. intros (row & -> & Hrow)%list_elem_of_fmap. by exists row. Qed.

Lemma downloaded_sub_row df r :
  r ∈ downloaded_sub df →
  ∃ row, row ∈ frame_rows df
         ∧ dl_id r = PyStr.strip (py_str (cell_at df "ID" row))
         ∧ dl_approved r
           = PyStr.upper
               (PyStr.strip (py_str (cell_at df "Approved final grade" row)))
         ∧ dl_withdrawn r
           = PyStr.upper (PyStr.strip (py_str (withdrawn_flag df row))).
Proof. intros (row & -> & Hrow)%list_elem_of_fmap. by exists row. Qed.

(** ** The mismatch rule *)

(** C1. When the cleaning of the two tables goes through (each selected
    label is borne by one column), a joined row present on both sides
    comes from a row of the roster and a row of the export of the same
    trimmed identifier, whose grades it shows trimmed and uppercased;
    with R and D the normalised grades of these two rows, it is marked
    mismatched exactly when R is "ABSENT" and D is not "F", or R is not
    "ABSENT" and R differs from D.  A joined row present on one side only
    is marked matched. *)
Theorem mismatch_rule base_name sid_col df_roster df_downloaded m :
  clean_data_raises sid_col df_roster df_downloaded = false →
  m ∈ merge_outer (roster_sub sid_col df_roster) (downloaded_sub df_downloaded) →
  (m_merge m = both →
     ∃ roster_row downloaded_row,
       roster_row ∈ frame_rows df_roster
       ∧ downloaded_row ∈ frame_rows df_downloaded
       ∧ r_ID_final (to_result base_name m)
         = PyStr.strip (py_str (cell_at df_roster sid_col roster_row))
       ∧ r_ID_final (to_result base_name m)
         = PyStr.strip (py_str (cell_at df_downloaded "ID" downloaded_row))
       ∧ r_letter (to_result base_name m)
         = CStr (PyStr.upper
                   (PyStr.strip
                      (py_str (cell_at df_roster "Letter Grade" roster_row))))
       ∧ r_approved (to_result base_name m)
         = CStr (PyStr.upper
                   (PyStr.strip
                      (py_str (cell_at df_downloaded "Approved final grade"
                                 downloaded_row))))
       ∧ let R := normalized_grade_spec
                    (cell_at df_roster "Letter Grade" roster_row) in
         let D := normalized_grade_spec
                    (cell_at df_downloaded "Approved final grade"
                       downloaded_row) in
         (r_matched (to_result base_name m) = false
          ↔ (R = "ABSENT" ∧ D ≠ "F") ∨ (R ≠ "ABSENT" ∧ R ≠ D)))
  ∧ (m_merge m ≠ both → r_matched (to_result base_name m) = true).
Proof.
  intros _ Hm. split.
  - intros Hboth.
    destruct (merge_outer_both _ _ _ Hm Hboth) as (l & r & Hl & Hr & Hk & ->).
    apply roster_sub_row in Hl as (rrow & Hrrow & Hsid & Hletter).
    apply downloaded_sub_row in Hr as (drow & Hdrow & Hid & Happ & _).
    exists rrow, drow. split; [done|]. split; [done|].
    assert (ID_final (row_both l r) = PyStr.strip (ro_sid l)) as Hfinal by done.
    simpl. rewrite Hfinal. split; [by rewrite Hsid, strip_idemp|].
    split; [by rewrite <- Hk, Hid, strip_idemp|].
    split; [by rewrite Hletter|]. split; [by rewrite Happ|].
    unfold matched, mismatch, norm_roster_grade, norm_downloaded_grade. simpl.
    rewrite Hletter, Happ.
    change (PyStr.upper (PyStr.strip (py_str ?v))) with (clean_upper v).
    rewrite !normalize_grade_clean, !normalize_grade_spec_eq.
    rewrite negb_false_iff, orb_true_iff, !andb_true_iff, !negb_true_iff.
    by rewrite !eqb_true_iff, !eqb_false_iff.
  - intros Hne. simpl. unfold matched, mismatch.
    by rewrite bool_decide_eq_false_2.
Qed.

Lemma mismatch_rule_witness :
  r_matched (to_result "CS1"
               (row_both (RosterRow "1" "P") (DownloadedRow "1" "PASS" "")))
  = true.
Proof.
  pose proof (mismatch_rule "CS1" "SID"
                (Frame ["SID"; "Letter Grade"] [[CInt 1; CStr " p "]])
                (Frame ["ID"; "Approved final grade"] [[CInt 1; CStr "Pass"]])
                (row_both (RosterRow "1" "P") (DownloadedRow "1" "PASS" "")))
    as Hrule.
  destruct Hrule as [Hboth _];
    [reflexivity|vm_compute; apply list_elem_of_here|].
  destruct (Hboth eq_refl) as (rrow & drow & Hr & Hd & _ & _ & _ & _ & Hiff).
  apply list_elem_of_singleton in Hr as ->.
  apply list_elem_of_singleton in Hd as ->.
  apply not_false_iff_true. intros Hunmatched.
  destruct (proj1 Hiff Hunmatched) as [[HR _]|[_ HRD]].
  - vm_compute in HR. discriminate.
  - apply HRD. vm_compute. reflexivity.
Defined.

(** ** Withdrawal *)

Lemma merge_outer_downloaded left right m :
  m ∈ merge_outer left right → m_merge m ≠ left_only →
  ∃ r, r ∈ right ∧ ID_final m = PyStr.strip (dl_id r)
       ∧ m_approved m = CStr (dl_approved r)
       ∧ m_withdrawn m = CStr (dl_withdrawn r).
Proof.
  intros [(l & _ & ->)|[(r & Hr & ->)|(l & r & _ & Hr & Hk & ->)]]%elem_of_merge_outer
    Hne; [done| |].
  - by exists r.
  - exists r. unfold ID_final. simpl. by rewrite Hk.
Qed.

Lemma merge_outer_left_only left right m :
  m ∈ merge_outer left right → m_merge m = left_only →
  m_approved m = CNaN ∧ m_withdrawn m = CNaN.
Proof.
  by intros [(l & _ & ->)|[(r & Hr & ->)|(l & r & _ & Hr & Hk & ->)]]%elem_of_merge_outer.
Qed.

(** C5. When the cleaning of the two tables goes through (each selected
    label is borne by one column), a joined row that has a row of the
    export (it is on both sides or on the export's side only) is
    withdrawn exactly when the approved grade of that row, trimmed and
    uppercased, is "W" or its withdrawn flag, trimmed and uppercased, is
    "WITHDRAWN"; a joined row of the roster alone has neither and is not
    withdrawn.  The classification does not depend on the mismatch
    classification: some run returns a row that is withdrawn and
    mismatched at once. *)
Theorem withdrawn_rule :
  (∀ base_name sid_col df_roster df_downloaded m,
     clean_data_raises sid_col df_roster df_downloaded = false →
     m ∈ merge_outer (roster_sub sid_col df_roster)
                     (downloaded_sub df_downloaded) →
     (m_merge m = left_only ∧ r_is_withdrawn (to_result base_name m) = false)
     ∨ (m_merge m ≠ left_only
        ∧ ∃ downloaded_row,
            downloaded_row ∈ frame_rows df_downloaded
            ∧ r_ID_final (to_result base_name m)
              = PyStr.strip (py_str (cell_at df_downloaded "ID" downloaded_row))
            ∧ r_approved (to_result base_name m)
              = CStr (PyStr.upper
                        (PyStr.strip
                           (py_str (cell_at df_downloaded "Approved final grade"
                                      downloaded_row))))
            ∧ m_withdrawn m
              = CStr (PyStr.upper
                        (PyStr.strip
                           (py_str (withdrawn_flag df_downloaded
                                      downloaded_row))))
            ∧ (r_is_withdrawn (to_result base_name m) = true
               ↔ PyStr.upper
                   (PyStr.strip
                      (py_str (cell_at df_downloaded "Approved final grade"
                                 downloaded_row))) = "W"
                 ∨ PyStr.upper
                     (PyStr.strip
                        (py_str (withdrawn_flag df_downloaded downloaded_row)))
                   = "WITHDRAWN")))
  ∧ (∃ mkstemp roster_files downloaded_files o r,
       o ∈ (compare_grades mkstemp roster_files downloaded_files).1.1
       ∧ r ∈ outcome_data o
       ∧ r ∈ outcome_unmatched o
       ∧ r_ID_final r ∈ outcome_withdrawn o
       ∧ r_is_withdrawn r = true
       ∧ r_matched r = false).
Proof.
  split.
  - intros base_name sid_col df_roster df_downloaded m _ Hm.
    destruct (decide (m_merge m = left_only)) as [Hleft|Hleft].
    + left. split; [done|].
      destruct (merge_outer_left_only _ _ _ Hm Hleft) as [Ha Hw].
      simpl. unfold is_withdrawn. by rewrite Ha, Hw.
    + right. split; [done|].
      destruct (merge_outer_downloaded _ _ _ Hm Hleft)
        as (r & Hr & Hfinal & Ha & Hw).
      apply downloaded_sub_row in Hr as (drow & Hdrow & Hid & Happ & Hwd).
      exists drow. split; [done|]. simpl.
      split; [by rewrite Hfinal, Hid, strip_idemp|].
      split; [by rewrite Ha, Happ|]. split; [by rewrite Hw, Hwd|].
      unfold is_withdrawn. rewrite Ha, Hw, Happ, Hwd. simpl.
      by rewrite orb_true_iff, !eqb_true_iff.
  - exists tmp_a,
      [RosterFile "M.xlsx"
         (inr [[CStr "SID"; CStr "Letter Grade"]; [CInt 1; CStr "A"]])],
      [DownloadedFile "M.csv"
         (inr (Frame ["ID"; "Approved final grade"] [[CInt 1; CStr "w"]]))],
      (Success "M" "Processed 1 students, found 1 mismatches, 1 withdrawn"
         [ResultRow "M" "1" (CStr "A") (CStr "W") false true]
         [ResultRow "M" "1" (CStr "A") (CStr "W") false true] ["1"]),
      (ResultRow "M" "1" (CStr "A") (CStr "W") false true).
    split; [vm_compute; apply list_elem_of_here|].
    split; [apply list_elem_of_here|]. split; [apply list_elem_of_here|].
    split; [apply list_elem_of_here|]. done.
Qed.

Lemma withdrawn_rule_witness :
  r_is_withdrawn (to_result "M" withdrawn_both) = true.
Proof.
  destruct (proj1 withdrawn_rule "M" "SID" roster_frame_a export_frame_w
              withdrawn_both)
    as [[Hleft _]|(_ & drow & Hdrow & _ & _ & _ & Hiff)];
    [reflexivity|vm_compute; apply list_elem_of_here|discriminate Hleft|].
  apply list_elem_of_singleton in Hdrow as ->.
  apply Hiff. left. vm_compute. reflexivity.
Defined.

(** ** Withdrawn identifiers *)

Lemma filter_fmap_eq {A} (f : A → string) (id : string) (l : list A) :
  filter (λ x, x = id) (f <$> l) = f <$> filter (λ a, f a = id) l.
Proof. apply filter_fmap. Qed.

(** C7 (amended). [withdrawn_ids] is a sequence that keeps repetitions:
    its numeric entries are, in order, the identifiers of the withdrawn
    rows of the outcome, one entry per row, so that a numeric identifier
    occurs in it as many times as there are withdrawn rows of the
    outcome under it. *)
Theorem withdrawn_ids_per_row mkstemp roster_files downloaded_files :
  ∀ o, o ∈ (compare_grades mkstemp roster_files downloaded_files).1.1 →
       is_success o = true →
       filter (λ i, PyStr.isnumeric i) (outcome_withdrawn o)
       = r_ID_final <$> filter (λ r, r_is_withdrawn r) (outcome_data o)
       ∧ ∀ id, PyStr.isnumeric id = true →
               length (filter (λ i, i = id) (outcome_withdrawn o))
               = length (filter (λ r, r_is_withdrawn r ∧ r_ID_final r = id)
                                (outcome_data o)).
Proof.
  destruct (compare_grades_spec mkstemp roster_files downloaded_files)
    as (os & Hos & ->).
  simpl. intros o Ho Hs.
  destruct (outcomes_success _ _ _ _ Hos Ho Hs) as (b & c & r & d & ->).
  assert (filter (λ i, PyStr.isnumeric i)
            (outcome_withdrawn (course_outcome b c r d))
          = r_ID_final
              <$> filter (λ r0, r_is_withdrawn r0)
                    (outcome_data (course_outcome b c r d))) as Hnum.
  { simpl. rewrite !filter_fmap, <- list_fmap_compose. simpl.
    by rewrite filter_comm. }
  split; [done|]. intros id Hid.
  assert (filter (λ i, i = id) (outcome_withdrawn (course_outcome b c r d))
          = filter (λ i, i = id)
              (filter (λ i, PyStr.isnumeric i)
                 (outcome_withdrawn (course_outcome b c r d)))) as ->.
  { rewrite list_filter_filter. apply list_filter_iff. intros x. split.
    - intros ->. split; [done|]. by apply Is_true_true.
    - by intros [? _]. }
  rewrite Hnum, filter_fmap_eq, length_fmap, list_filter_filter.
  f_equal. apply list_filter_iff. intros x. tauto.
Qed.

Lemma withdrawn_ids_witness :
  filter (λ i, PyStr.isnumeric i) (outcome_withdrawn outcome_withdrawn_twice)
  = r_ID_final
      <$> filter (λ r, r_is_withdrawn r) (outcome_data outcome_withdrawn_twice)
  ∧ ∀ id, PyStr.isnumeric id = true →
          length (filter (λ i, i = id) (outcome_withdrawn outcome_withdrawn_twice))
          = length (filter (λ r, r_is_withdrawn r ∧ r_ID_final r = id)
                           (outcome_data outcome_withdrawn_twice)).
Proof.
  apply (withdrawn_ids_per_row tmp_a
           [RosterFile "CS1.xlsx" (inr roster_one)]
           [DownloadedFile "CS1.csv" (inr export_withdrawn_twice)]
           outcome_withdrawn_twice).
  - vm_compute. apply list_elem_of_here.
  - reflexivity.
Defined.

(** ** The header locator in a batch *)







(** * More on the rows of an outcome *)

Lemma all_digits_all_chars s :
  PyStr.all_digits s = all_chars PyStr.is_digit s.
Proof. induction s as [|c s IH]; simpl; [done|]. by rewrite IH. Qed.

(** Every row of every outcome carries the course name of its outcome,
    which is a success; its identifier is not empty, and when it is
    ASCII text it is made of decimal digits only. *)
Theorem rows_labelled_and_admitted mkstemp roster_files downloaded_files :
  ∀ o r, o ∈ (compare_grades mkstemp roster_files downloaded_files).1.1 →
         r ∈ outcome_data o →
         is_success o = true
         ∧ course r = outcome_course o
         ∧ r_ID_final r ≠ ""
         ∧ (is_ascii (r_ID_final r) = true →
            all_chars PyStr.is_digit (r_ID_final r) = true).
Proof.
  intros o r Ho Hr.
  pose proof (rows_are_numeric _ _ _ _ _ Ho Hr) as Hn.
  assert (r_ID_final r ≠ ""
          ∧ all_chars PyStr.is_digit (r_ID_final r) = true) as [Hne Hdigits].
  { rewrite <- all_digits_all_chars. by destruct (r_ID_final r). }
  revert Ho Hr.
  destruct (compare_grades_spec mkstemp roster_files downloaded_files)
    as (os & Hos & ->).
  simpl. intros Ho Hr.
  destruct o as [b msg data un wd|]; [|by apply elem_of_nil in Hr].
  split; [done|].
  destruct (outcomes_success _ _ _ _ Hos Ho eq_refl) as (b' & c & fr & fd & Heq).
  rewrite Heq in Hr |- *.
  by apply elem_of_course_data in Hr as (m & -> & _).
Qed.

Lemma rows_labelled_and_admitted_witness :
  is_success outcome_plain = true
  ∧ course row_101 = outcome_course outcome_plain
  ∧ r_ID_final row_101 ≠ ""
  ∧ all_chars PyStr.is_digit (r_ID_final row_101) = true.
Proof.
  destruct (rows_labelled_and_admitted tmp_a batch_two exports_two
              outcome_plain row_101) as (Hs & Hc & Hne & Hdigits).
  - vm_compute. apply list_elem_of_further, list_elem_of_here.
  - vm_compute. apply list_elem_of_further, list_elem_of_here.
  - split; [exact Hs|]. split; [exact Hc|]. split; [exact Hne|].
    apply Hdigits. reflexivity.
Defined.

(** When the cleaning of the two tables goes through, an unmatched row
    of the reconciled course is one of the rows of its outcome and is
    marked unmatched; its student is on both tables: a row of the roster
    and a row of the export bear its identifier, trimmed, and their
    grade cells, trimmed and uppercased, are the two grades of the row. *)
Theorem unmatched_rows_on_both_tables
    base_name sid_col df_roster df_downloaded st :
  clean_data_raises sid_col df_roster df_downloaded = false →
  ∃ o, results (reconcile base_name sid_col df_roster df_downloaded st)
       = results st ++ [o]
       ∧ ∀ r, r ∈ outcome_unmatched o →
              r ∈ outcome_data o
              ∧ r_matched r = false
              ∧ (∃ roster_row,
                   roster_row ∈ frame_rows df_roster
                   ∧ r_ID_final r
                     = PyStr.strip (py_str (cell_at df_roster sid_col roster_row))
                   ∧ r_letter r
                     = CStr (PyStr.upper
                               (PyStr.strip
                                  (py_str (cell_at df_roster "Letter Grade"
                                             roster_row)))))
              ∧ (∃ downloaded_row,
                   downloaded_row ∈ frame_rows df_downloaded
                   ∧ r_ID_final r
                     = PyStr.strip
                         (py_str (cell_at df_downloaded "ID" downloaded_row))
                   ∧ r_approved r
                     = CStr (PyStr.upper
                               (PyStr.strip
                                  (py_str (cell_at df_downloaded
                                             "Approved final grade"
                                             downloaded_row))))).
Proof.
  intros _.
  exists (course_outcome base_name sid_col df_roster df_downloaded).
  split; [done|]. intros r Hr.
  unfold course_outcome in Hr. simpl in Hr.
  apply list_elem_of_filter in Hr as [Hun Hr].
  split; [done|]. split; [by destruct (r_matched r)|].
  apply elem_of_course_data in Hr as (m & -> & Hm & _). simpl in Hun.
  unfold matched, mismatch in Hun.
  destruct (decide (m_merge m = both)) as [Hb|Hb];
    [|by rewrite bool_decide_eq_false_2 in Hun].
  destruct (merge_outer_both _ _ _ Hm Hb) as (l & d & Hl & Hd & Hk & ->).
  apply roster_sub_row in Hl as (rrow & Hrrow & Hsid & Hletter).
  apply downloaded_sub_row in Hd as (drow & Hdrow & Hid & Happ & _).
  assert (ID_final (row_both l d) = PyStr.strip (ro_sid l)) as Hfinal by done.
  simpl. rewrite Hfinal. split.
  - exists rrow. split; [done|]. split; [by rewrite Hsid, strip_idemp|].
    by rewrite Hletter.
  - exists drow. split; [done|]. split; [by rewrite <- Hk, Hid, strip_idemp|].
    by rewrite Happ.
Qed.

Lemma unmatched_rows_witness :
  ∃ o, results (reconcile "CS1" "SID" roster_frame_a export_frame_w
                  initial_state)
       = results initial_state ++ [o]
       ∧ ∀ r, r ∈ outcome_unmatched o →
              r ∈ outcome_data o
              ∧ r_matched r = false
              ∧ (∃ roster_row,
                   roster_row ∈ frame_rows roster_frame_a
                   ∧ r_ID_final r
                     = PyStr.strip
                         (py_str (cell_at roster_frame_a "SID" roster_row))
                   ∧ r_letter r
                     = CStr (PyStr.upper
                               (PyStr.strip
                                  (py_str (cell_at roster_frame_a
                                             "Letter Grade" roster_row)))))
              ∧ (∃ downloaded_row,
                   downloaded_row ∈ frame_rows export_frame_w
                   ∧ r_ID_final r
                     = PyStr.strip
                         (py_str (cell_at export_frame_w "ID" downloaded_row))
                   ∧ r_approved r
                     = CStr (PyStr.upper
                               (PyStr.strip
                                  (py_str (cell_at export_frame_w
                                             "Approved final grade"
                                             downloaded_row))))).
Proof.
  apply (unmatched_rows_on_both_tables "CS1" "SID" roster_frame_a
           export_frame_w initial_state).
  reflexivity.
Defined.

(** * Labels are looked up as written *)

(** The locator compares labels uppercased, the reconciler looks them up
    as written: a paired roster whose header row is found, but whose
    frame has no label that is, trimmed, exactly "Letter Grade", ends in
    one error outcome, and the course is counted.  The message is that
    of the unreadable export when the export cannot be read, and else
    names the missing column of the roster. *)
Theorem exact_labels_required
    mkstemp downloaded_dict st roster downloaded df_raw header_row df_roster :
  downloaded_dict !! stem (rf_name roster) = Some downloaded →
  rf_excel roster = inr df_raw →
  find_header df_raw = Some header_row →
  rf_reread roster header_row = inr df_roster →
  "Letter Grade" ∉ PyStr.strip <$> columns df_roster →
  ∃ message,
    results (process mkstemp downloaded_dict st roster)
    = results st ++ [Error (stem (rf_name roster)) message]
    ∧ total_courses (summary_stats (process mkstemp downloaded_dict st roster))
      = total_courses (summary_stats st) + 1
    ∧ match df_csv downloaded with
      | inl e => message = "Error processing files: " +:+ exn_str e
      | inr _ => message = "Required student id column is missing."
                 ∨ message = "'Letter Grade' column is missing."
      end.
Proof.
  intros Hd Hx Hh Hr Hlabel.
  unfold process. rewrite Hd, Hx. unfold read_roster_file. rewrite Hh, Hr.
  destruct (df_csv downloaded) as [e|df_downloaded]; [by eexists|].
  unfold check_and_reconcile.
  destruct (sid_column _); [|eexists; eauto].
  assert (has_column "Letter Grade" (strip_columns df_roster) = false) as ->.
  { apply not_true_is_false. by rewrite has_column_elem. }
  simpl. eexists; eauto.
Qed.

Lemma exact_labels_required_witness :
  ∃ message,
    results (process tmp_a
               (make_downloaded_dict [DownloadedFile "CS1.csv" (inr export_once)])
               initial_state (RosterFile "CS1.xlsx" (inr roster_capitals)))
    = results initial_state ++ [Error (stem "CS1.xlsx") message]
    ∧ total_courses
        (summary_stats
           (process tmp_a
              (make_downloaded_dict [DownloadedFile "CS1.csv" (inr export_once)])
              initial_state (RosterFile "CS1.xlsx" (inr roster_capitals))))
      = total_courses (summary_stats initial_state) + 1
    ∧ (message = "Required student id column is missing."
       ∨ message = "'Letter Grade' column is missing.").
Proof.
  apply (exact_labels_required tmp_a
           (make_downloaded_dict [DownloadedFile "CS1.csv" (inr export_once)])
           initial_state (RosterFile "CS1.xlsx" (inr roster_capitals))
           (DownloadedFile "CS1.csv" (inr export_once))
           roster_capitals 0 (with_header 0 roster_capitals)).
  - vm_compute. reflexivity.
  - reflexivity.
  - vm_compute. reflexivity.
  - reflexivity.
  - apply (bool_decide_unpack _). vm_compute. exact I.
Defined.

(** * The grade normaliser and the name pattern on plain text *)

(** The normalised grade does not depend on the white space around the
    token nor on its being uppercased first; on ASCII text it does not
    depend on the letter case at all. *)
Theorem normalize_grade_insensitive (s : string) :
  normalize_grade (CStr (PyStr.strip s)) = normalize_grade (CStr s)
  ∧ normalize_grade (CStr (PyStr.upper s)) = normalize_grade (CStr s)
  ∧ (is_ascii s = true →
     normalize_grade (CStr (PyStr.lower s)) = normalize_grade (CStr s)).
Proof.
  unfold normalize_grade. simpl. repeat split.
  - by rewrite strip_idemp.
  - by rewrite strip_upper, upper_idemp.
  - intros _. unfold PyStr.strip.
    by rewrite rstrip_lower, lstrip_lower, upper_lower.
Qed.

Lemma normalize_grade_insensitive_witness :
  normalize_grade (CStr (PyStr.lower " Pass ")) = normalize_grade (CStr " Pass ").
Proof.
  apply (proj2 (proj2 (normalize_grade_insensitive " Pass "))). reflexivity.
Defined.

(** On an ASCII name without newline the pattern matches exactly a course
    code alone or a course code followed by an underscore and anything,
    and group 1 is that code. *)
Theorem pattern_matches_codes s g :
  is_ascii s = true →
  no_newline s = true →
  Re.match_group1 s = Some g
  ↔ is_code g = true ∧ (s = g ∨ ∃ t, s = g +:+ String "_" t).
Proof. intros _. apply match_group1_plain. Qed.

Lemma pattern_matches_codes_witness :
  Re.match_group1 "MATH101_1" = Some "MATH101"
  ↔ is_code "MATH101" = true
    ∧ ("MATH101_1" = "MATH101" ∨ ∃ t, "MATH101_1" = "MATH101" +:+ String "_" t).
Proof.
  apply (pattern_matches_codes "MATH101_1" "MATH101"); reflexivity.
Defined.

(** * A label borne by two columns *)

(** Two labels of the roster that are the same once trimmed: the cleaning
    raises, the course ends in an error and only [total_courses] moves. *)
Example repeated_label_run :
  compare_grades tmp_a
    [RosterFile "CS1.xlsx" (inr roster_two_grade_columns)]
    [DownloadedFile "CS1.csv" (inr export_once)]
  = ([Error "CS1"
        "Error processing files: 'DataFrame' object has no attribute 'str'"],
     Summary 1 0 0 0 0 0, []).
Proof. vm_compute. reflexivity. Qed.
